(** * Node-agent reconciliation engine of gardener-node-agent

    Shallow embedding of the operating-system-config reconciler of the
    gardener node agent ([pkg/nodeagent/controller/operatingsystemconfig]):
    the desired-state assembler, the diff engine, the execution planner with
    its self-restart gate, the bookkeeper, and the filesystem effect of a plan.

    The controller's own source is not part of this tree; what is present is
    its integration test ([src/unnamed/part_000], "OperatingSystemConfig
    controller tests").  The definitions below are therefore modelled from the
    spec, and wherever the actions asserted by that test (the [fakedbus]
    action lists, the files checked with [assertFileOnDisk]) differ from the
    spec's prose, they follow the test.  The lemmas [scenario_*] at the end of
    the file replay the three test cases and check that the model produces
    exactly the asserted actions and files. *)

From Stdlib Require Import ZArith Ascii String.
From stdpp Require Import base gmap strings list.

Local Infix "+s+" := String.append (at level 60, right associativity).

(** ** Data model ([extensionsv1alpha1]) *)

Inductive FileContent :=
| Inline (encoding data : string)
| ImageRef (image file_path_in_image : string).

Record File := mkFile {
  file_path : string;
  file_content : FileContent;
  file_permissions : option Z
}.

Record DropIn := mkDropIn {
  dropin_name : string;
  dropin_content : string
}.

Inductive UnitCommand := CommandStart | CommandStop.

Record Unit := mkUnit {
  unit_name : string;
  unit_enable : option bool;
  unit_command : option UnitCommand;
  unit_content : option string;
  unit_dropins : list DropIn;
  unit_files : list File
}.

Global Instance FileContent_eq_dec : EqDecision FileContent.
Proof. solve_decision. Defined.
Global Instance File_eq_dec : EqDecision File.
Proof. solve_decision. Defined.
Global Instance DropIn_eq_dec : EqDecision DropIn.
Proof. solve_decision. Defined.
Global Instance UnitCommand_eq_dec : EqDecision UnitCommand.
Proof. solve_decision. Defined.
Global Instance Unit_eq_dec : EqDecision Unit.
Proof. solve_decision. Defined.

(** The assembled desired state: files keyed by path, units keyed by name.
    The applied state (the bookkeeper's last-applied record) has the same
    shape. *)
Record DesiredState := mkDesiredState {
  ds_files : gmap string File;
  ds_units : gmap string Unit
}.

Definition empty_state : DesiredState := mkDesiredState ∅ ∅.

(** ** Constants of the node agent *)

(** [nodeagentv1alpha1.UnitName] *)
Definition gna_unit_name : string := "gardener-node-agent.service".

(** [etcSystemdSystem] *)
Definition etc_systemd_system : string := "/etc/systemd/system".

(** [defaultFilePermissions] = 0600 *)
Definition default_file_permissions : Z := 384.

Definition unit_path (n : string) : string := etc_systemd_system +s+ "/" +s+ n.
Definition dropin_dir (n : string) : string := unit_path n +s+ ".d".
Definition dropin_path (n d : string) : string := dropin_dir n +s+ "/" +s+ d.

(** ** Content resolver *)

(** Value of one character of the standard base64 alphabet. *)
Definition b64_value (c : ascii) : option nat :=
  let n := nat_of_ascii c in
  if (65 <=? n) && (n <=? 90) then Some (n - 65)
  else if (97 <=? n) && (n <=? 122) then Some (n - 71)
  else if (48 <=? n) && (n <=? 57) then Some (n + 4)
  else if n =? 43 then Some 62
  else if n =? 47 then Some 63
  else None.

Definition eq_char : ascii := "="%char.

(** [base64.StdEncoding.DecodeString]: padded groups of four characters. *)
Fixpoint b64_decode_chars (s : list ascii) : option (list ascii) :=
  match s with
  | [] => Some []
  | a :: b :: c :: d :: rest =>
      match b64_value a, b64_value b with
      | Some va, Some vb =>
          let byte1 := ascii_of_nat (va * 4 + vb / 16) in
          if bool_decide (c = eq_char) then
            if bool_decide (d = eq_char) && bool_decide (rest = []) then Some [byte1] else None
          else
            match b64_value c with
            | None => None
            | Some vc =>
                let byte2 := ascii_of_nat ((vb mod 16) * 16 + vc / 4) in
                if bool_decide (d = eq_char) then
                  if bool_decide (rest = []) then Some [byte1; byte2] else None
                else
                  match b64_value d with
                  | None => None
                  | Some vd =>
                      let byte3 := ascii_of_nat ((vc mod 4) * 64 + vd) in
                      match b64_decode_chars rest with
                      | Some out => Some (byte1 :: byte2 :: byte3 :: out)
                      | None => None
                      end
                  end
            end
      | _, _ => None
      end
  | _ => None
  end.

Definition b64_decode (s : string) : option string :=
  string_of_list_ascii <$> b64_decode_chars (list_ascii_of_string s).

(** [extensionsv1alpha1helper.Decode]: "" is raw data, "b64"/"base64" is
    base64; any other encoding cannot be decoded. *)
Definition decode (encoding data : string) : option string :=
  if bool_decide (encoding = "") then Some data
  else if bool_decide (encoding = "b64") || bool_decide (encoding = "base64")
  then b64_decode data
  else None.

(** Locally mounted images: image reference, path in the image, bytes. *)
Abbreviation Mounts := (list (string * string * string)).

Fixpoint lookup_mount (ms : Mounts) (img p : string) : option string :=
  match ms with
  | [] => None
  | (i, q, c) :: rest =>
      if bool_decide (i = img) && bool_decide (q = p) then Some c
      else lookup_mount rest img p
  end.

(** [resolve]: [None] is [ContentUnavailable]. *)
Definition resolve (ms : Mounts) (f : File) : option string :=
  match file_content f with
  | Inline enc data => decode enc data
  | ImageRef img p => lookup_mount ms img p
  end.

(** ** Desired-state assembler *)

Inductive AssembleError := AmbiguousFile (path : string).

(** A fragment-only unit carries neither content nor enable. *)
Definition is_fragment (u : Unit) : bool :=
  match unit_content u, unit_enable u with
  | None, None => true
  | _, _ => false
  end.

(** Fold entry [u] into the unit [base] of the same name: drop-ins and
    embedded files are concatenated in list order; enable, command and content
    are those of the first non-fragment entry. *)
Definition merge_unit (base u : Unit) : Unit :=
  let base' := if is_fragment base && negb (is_fragment u) then u else base in
  mkUnit (unit_name base) (unit_enable base') (unit_command base')
    (unit_content base') (unit_dropins base ++ unit_dropins u)
    (unit_files base ++ unit_files u).

Definition add_unit (m : gmap string Unit) (u : Unit) : gmap string Unit :=
  match m !! unit_name u with
  | None => <[unit_name u := u]> m
  | Some base => <[unit_name u := merge_unit base u]> m
  end.

(** Modelled from the spec: units grouped by name, owner entries before extension entries. *)
Definition merge_units (owner ext : list Unit) : gmap string Unit :=
  foldl add_unit ∅ (owner ++ ext).

Definition add_file (acc : gmap string File + AssembleError) (f : File)
    : gmap string File + AssembleError :=
  match acc with
  | inr e => inr e
  | inl m =>
      match m !! file_path f with
      | Some _ => inr (AmbiguousFile (file_path f))
      | None => inl (<[file_path f := f]> m)
      end
  end.

Definition collect_files (fs : list File) : gmap string File + AssembleError :=
  foldl add_file (inl ∅) fs.

(** Modelled from the spec: [assemble(ownerFiles, ownerUnits, extensionFiles, extensionUnits)]:
    the files of all lists and the files embedded in all units form one set
    keyed by path. *)
Definition assemble (owner_files : list File) (owner_units : list Unit)
    (ext_files : list File) (ext_units : list Unit) : DesiredState + AssembleError :=
  let all_files := owner_files ++ ext_files
                   ++ concat (map unit_files (owner_units ++ ext_units)) in
  match collect_files all_files with
  | inr e => inr e
  | inl fs => inl (mkDesiredState fs (merge_units owner_units ext_units))
  end.

(** ** Diff engine *)

(** Added/Modified files (keyed by path), Removed files, Added ([None] as
    prior unit) or Modified ([Some] prior unit) units, Removed units. *)
Record ChangeSet := mkChangeSet {
  cs_files_changed : gmap string File;
  cs_files_removed : gmap string File;
  cs_units_changed : gmap string (option Unit * Unit);
  cs_units_removed : gmap string Unit
}.

(** Files are compared after resolution, and on their permissions. *)
Definition file_differs (ms : Mounts) (old new : File) : bool :=
  bool_decide (resolve ms old ≠ resolve ms new)
  || bool_decide (file_permissions old ≠ file_permissions new).

Definition diff_file (ms : Mounts) (old new : option File) : option File :=
  match old, new with
  | None, Some f => Some f
  | Some g, Some f => if file_differs ms g f then Some f else None
  | _, _ => None
  end.

(** Modelled from the spec: units are compared structurally, embedded files included: the test's
    second case restarts unit6 and unit7, whose only change is in their
    embedded files. *)
Definition diff_unit (old new : option Unit) : option (option Unit * Unit) :=
  match old, new with
  | None, Some u => Some (None, u)
  | Some v, Some u => if bool_decide (v = u) then None else Some (Some v, u)
  | _, _ => None
  end.

Definition only_old {A} (old new : option A) : option A :=
  match old, new with
  | Some x, None => Some x
  | _, _ => None
  end.

(** Modelled from the spec: [diff(desired, applied)] *)
Definition diff (ms : Mounts) (desired applied : DesiredState) : ChangeSet :=
  mkChangeSet
    (merge (diff_file ms) (ds_files applied) (ds_files desired))
    (merge only_old (ds_files applied) (ds_files desired))
    (merge diff_unit (ds_units applied) (ds_units desired))
    (merge only_old (ds_units applied) (ds_units desired)).

Definition empty_changeset : ChangeSet := mkChangeSet ∅ ∅ ∅ ∅.

(** ** Execution planner *)

Inductive Step :=
| WriteFile (path content : string) (mode : Z)
| ContentUnavailable (path : string)
| DeleteFile (path : string)
| DeleteDir (path : string)
| EnableUnit (name : string)
| DisableUnit (name : string)
| DaemonReload
| StartUnit (name : string)
| StopUnit (name : string)
| RestartUnit (name : string).

Global Instance Step_eq_dec : EqDecision Step.
Proof. solve_decision. Defined.

(** Modelled from the spec: declared permissions, or [defaultFilePermissions]. *)
Definition file_mode (f : File) : Z :=
  match file_permissions f with
  | Some m => m
  | None => default_file_permissions
  end.

Definition file_write_step (ms : Mounts) (p : string) (f : File) : Step :=
  match resolve ms f with
  | Some c => WriteFile p c (file_mode f)
  | None => ContentUnavailable p
  end.

(** Drop-ins of the prior unit that the new unit no longer declares. *)
Definition stale_dropins (old : option Unit) (u : Unit) : list string :=
  match old with
  | None => []
  | Some v =>
      List.filter (λ d, negb (bool_decide (d ∈ map dropin_name (unit_dropins u))))
        (map dropin_name (unit_dropins v))
  end.

(** Modelled from the spec: unit file and drop-ins of an Added/Modified unit, all with mode 0600;
    a unit without drop-ins gets its drop-in directory removed. *)
Definition unit_file_steps (n : string) (ou : option Unit * Unit) : list Step :=
  let '(old, u) := ou in
  match unit_content u with
  | Some c => [WriteFile (unit_path n) c default_file_permissions]
  | None => []
  end ++
  match unit_dropins u with
  | [] => [DeleteDir (dropin_dir n)]
  | ds =>
      map (λ d, DeleteFile (dropin_path n d)) (stale_dropins old u)
      ++ map (λ d, WriteFile (dropin_path n (dropin_name d)) (dropin_content d)
                     default_file_permissions) ds
  end.

Definition removed_unit_file_steps (n : string) (_ : Unit) : list Step :=
  [DeleteFile (unit_path n); DeleteDir (dropin_dir n)].

(** Modelled from the spec: every Added/Modified unit is enabled unless it declares [enable: false];
    the node agent's own unit is always enabled (test: first and third
    case). *)
Definition enable_step (n : string) (u : Unit) : Step :=
  match unit_enable u with
  | Some false => if bool_decide (n = gna_unit_name) then EnableUnit n else DisableUnit n
  | _ => EnableUnit n
  end.

Definition must_stop (u : Unit) : bool :=
  bool_decide (unit_enable u = Some false) || bool_decide (unit_command u = Some CommandStop).

(** Modelled from the spec: command phase for an Added/Modified unit: stop or restart, suppressed
    for the node agent's own unit (self-check). *)
Definition command_steps (n : string) (ou : option Unit * Unit) : list Step :=
  if bool_decide (n = gna_unit_name) then []
  else [if must_stop ou.2 then StopUnit n else RestartUnit n].

Definition unit_needs_reload (ou : option Unit * Unit) : bool :=
  match ou.1 with
  | None => true
  | Some v => bool_decide (unit_content v ≠ unit_content ou.2)
              || bool_decide (unit_dropins v ≠ unit_dropins ou.2)
  end.

(** Modelled from the spec: manager reload iff a unit was added, removed, or changed its content or
    drop-ins. *)
Definition reload_needed (cs : ChangeSet) : bool :=
  existsb (λ kv, unit_needs_reload kv.2) (map_to_list (cs_units_changed cs))
  || negb (bool_decide (cs_units_removed cs = ∅)).

(** Modelled from the spec: [shouldCancel(changeSet)] *)
Definition should_cancel (cs : ChangeSet) : bool :=
  bool_decide (is_Some (cs_units_changed cs !! gna_unit_name)).

Definition for_each {A} (m : gmap string A) (f : string → A → list Step) : list Step :=
  flat_map (λ kv, f kv.1 kv.2) (map_to_list m).

Record Plan := mkPlan {
  plan_steps : list Step;
  plan_cancel : bool
}.

Definition file_phase (ms : Mounts) (cs : ChangeSet) : list Step :=
  for_each (cs_files_changed cs) (λ p f, [file_write_step ms p f])
  ++ for_each (cs_files_removed cs) (λ p _, [DeleteFile p])
  ++ for_each (cs_units_changed cs) unit_file_steps
  ++ for_each (cs_units_removed cs) removed_unit_file_steps.

Definition enablement_phase (cs : ChangeSet) : list Step :=
  for_each (cs_units_changed cs) (λ n ou, [enable_step n ou.2])
  ++ for_each (cs_units_removed cs) (λ n _, [DisableUnit n]).

Definition reload_phase (cs : ChangeSet) : list Step :=
  if reload_needed cs then [DaemonReload] else [].

Definition command_phase (cs : ChangeSet) : list Step :=
  for_each (cs_units_changed cs) command_steps
  ++ for_each (cs_units_removed cs) (λ n _, [StopUnit n]).

(** Modelled from the spec: [plan(changeSet)] *)
Definition plan (ms : Mounts) (cs : ChangeSet) : Plan :=
  mkPlan (file_phase ms cs ++ enablement_phase cs ++ reload_phase cs ++ command_phase cs)
         (should_cancel cs).

(** Modelled from the spec: one reconciliation plans the diff of the desired
    state against the applied baseline. *)
Definition reconcile (ms : Mounts) (desired applied : DesiredState) : Plan :=
  plan ms (diff ms desired applied).

(** ** Filesystem adapter and bookkeeper *)

(** Regular files: path to content and mode; directories are implicit. *)
Abbreviation FS := (gmap string (string * Z)).

Fixpoint str_prefix (p s : string) : bool :=
  match p, s with
  | EmptyString, _ => true
  | String a p', String b s' => bool_decide (a = b) && str_prefix p' s'
  | _, _ => false
  end.

(** [RemoveAll(d)] removes [d] itself and everything beneath it. *)
Definition in_dir (d k : string) : bool :=
  bool_decide (k = d) || str_prefix (d +s+ "/") k.

Definition dir_exists (fs : FS) (d : string) : Prop :=
  ∃ k v, fs !! k = Some v ∧ str_prefix (d +s+ "/") k = true.

Definition exec_step (fs : FS) (s : Step) : FS :=
  match s with
  | WriteFile p c m => <[p := (c, m)]> fs
  | DeleteFile p => delete p fs
  | DeleteDir d => filter (λ kv, in_dir d kv.1 = false) fs
  | _ => fs
  end.

Definition exec_plan (fs : FS) (ss : list Step) : FS := foldl exec_step fs ss.

(** Steps that did not land. *)
Definition failed_steps (ss : list Step) : list Step :=
  List.filter (λ s, match s with ContentUnavailable _ => true | _ => false end) ss.

(** Modelled from the spec: [commit(attemptedDesiredState, outcome)]: the baseline is overwritten
    with the attempted desired state whatever the outcome. *)
Definition commit (attempted : DesiredState) (outcome : list Step) : DesiredState :=
  attempted.

(** Modelled from the spec: one reconciliation cycle: plan, execute, commit; returns the new
    filesystem, the new applied baseline and the cancellation flag. *)
Definition cycle (ms : Mounts) (fs : FS) (desired applied : DesiredState)
    : FS * DesiredState * bool :=
  let p := reconcile ms desired applied in
  let fs' := exec_plan fs (plan_steps p) in
  (fs', commit desired (failed_steps (plan_steps p)), plan_cancel p).

(** Service-manager calls as recorded by [fakedbus]. *)
Inductive SystemdAction :=
| ActionEnable (n : string)
| ActionDisable (n : string)
| ActionDaemonReload
| ActionStart (n : string)
| ActionStop (n : string)
| ActionRestart (n : string).

Global Instance SystemdAction_eq_dec : EqDecision SystemdAction.
Proof. solve_decision. Defined.

Definition systemd_action (s : Step) : option SystemdAction :=
  match s with
  | EnableUnit n => Some (ActionEnable n)
  | DisableUnit n => Some (ActionDisable n)
  | DaemonReload => Some ActionDaemonReload
  | StartUnit n => Some (ActionStart n)
  | StopUnit n => Some (ActionStop n)
  | RestartUnit n => Some (ActionRestart n)
  | _ => None
  end.

Definition dbus_actions (ss : list Step) : list SystemdAction := omap systemd_action ss.

(** ** Views used by the statements *)

(** The unit entries of a list that carry the name [n], in list order. *)
Definition units_named (n : string) (us : list Unit) : list Unit :=
  List.filter (λ u, bool_decide (unit_name u = n)) us.

(** All files the assembler collects, in the order it collects them. *)
Definition all_files (owner_files : list File) (owner_units : list Unit)
    (ext_files : list File) (ext_units : list Unit) : list File :=
  owner_files ++ ext_files ++ concat (map unit_files (owner_units ++ ext_units)).

(** ** Unit-file layout *)

(** The directory that holds unit files and drop-in directories, with its
    trailing separator. *)
Definition unit_root : string := etc_systemd_system +s+ "/".

Fixpoint has_slash (s : string) : bool :=
  match s with
  | EmptyString => false
  | String c s' => bool_decide (c = "/"%char) || has_slash s'
  end.

Definition ends_with_dot_d (s : string) : bool :=
  match List.rev (list_ascii_of_string s) with
  | c1 :: c2 :: _ => bool_decide (c1 = "d"%char) && bool_decide (c2 = "."%char)
  | _ => false
  end.

(** Side conditions under which the unit-file layout is kept: no declared
    file lies under [/etc/systemd/system/], unit names contain no separator
    and do not end in [.d], drop-in names are distinct within a unit. *)
Definition well_formed (st : DesiredState) : Prop :=
  map_Forall (λ p _, str_prefix unit_root p = false) (ds_files st) ∧
  map_Forall (λ n u, has_slash n = false ∧ ends_with_dot_d n = false
                     ∧ NoDup (map dropin_name (unit_dropins u))) (ds_units st).


(** Whether executing [s] can change what the filesystem holds at [k]. *)
Definition touches (k : string) (s : Step) : bool :=
  match s with
  | WriteFile p _ _ | DeleteFile p => bool_decide (p = k)
  | DeleteDir d => in_dir d k
  | _ => false
  end.

(** Number of occurrences of a step in a plan. *)
Definition occurrences (ss : list Step) (s : Step) : nat := count_occ Step_eq_dec ss s.

(** ** Helpers of the controller test ([src/unnamed/part_000]) *)

(** [fakeFS.DirExists(path)]: directories are implicit in [FS], a directory
    exists while some file lies beneath it. *)
Definition dir_exists_b (fs : FS) (d : string) : bool :=
  existsb (λ kv, str_prefix (d +s+ "/") kv.1) (map_to_list fs).

(** [assertFileOnDisk(fakeFS, path, expectedContent, fileMode)]: [ReadFile]
    succeeds with [expectedContent] and [Stat] reports the mode [fileMode]. *)
Definition assertFileOnDisk (fs : FS) (path expectedContent : string) (fileMode : Z) : bool :=
  bool_decide (fs !! path = Some (expectedContent, fileMode)).

(** [assertNoFileOnDisk(fakeFS, path)]: [ReadFile] fails with
    [ErrFileNotFound], so there is neither a file nor a directory at [path]. *)
Definition assertNoFileOnDisk (fs : FS) (path : string) : bool :=
  bool_decide (fs !! path = None) && negb (dir_exists_b fs path).

(** [assertNoDirectoryOnDisk(fakeFS, path)]: [DirExists] reports false. *)
Definition assertNoDirectoryOnDisk (fs : FS) (path : string) : bool :=
  negb (dir_exists_b fs path).

(** [type cancelFuncEnsurer struct { called bool }] *)
Record cancelFuncEnsurer := mkCancelFuncEnsurer { called : bool }.

(** [func (c *cancelFuncEnsurer) cancel() { c.called = true }] *)
Definition cancel (c : cancelFuncEnsurer) : cancelFuncEnsurer :=
  mkCancelFuncEnsurer true.

(** The reconciler registered in [BeforeEach] with
    [CancelContext: cancelFunc.cancel]: a cycle that raises the cancellation
    flag calls [cancel] on the test's ensurer. *)
Definition cycle_with_cancel (ms : Mounts) (st : FS * DesiredState * cancelFuncEnsurer)
    (desired : DesiredState) : FS * DesiredState * cancelFuncEnsurer :=
  let '(fs, applied, c) := st in
  let '(fs', applied', flag) := cycle ms fs desired applied in
  (fs', applied', if flag then cancel c else c).

(** Successive reconciliations of the desired states [ds]. *)
Definition run_cycles (ms : Mounts) (st : FS * DesiredState * cancelFuncEnsurer)
    (ds : list DesiredState) : FS * DesiredState * cancelFuncEnsurer :=
  foldl (cycle_with_cancel ms) st ds.

(** Every declared file whose content resolves passes [assertFileOnDisk]
    with its resolved content and its mode. *)
Definition files_on_disk (ms : Mounts) (fs : FS) (st : DesiredState) : bool :=
  bool_decide (map_Forall (λ p f,
    match resolve ms f with
    | Some c => assertFileOnDisk fs p c (file_mode f)
    | None => true
    end = true) (ds_files st)).

(** ** The controller test's scenarios ([src/unnamed/part_000]) *)

Module OSCControllerTest.

Definition file1 := mkFile "/example/file" (Inline "" "file1") (Some 511%Z).
Definition file2 := mkFile "/another/file" (Inline "b64" "ZmlsZTI=") None.
Definition file3 := mkFile "/third/file" (ImageRef "foo-image" "/foo-file") (Some 488%Z).
Definition file4 := mkFile "/unchanged/file" (Inline "" "file4") (Some 488%Z).
Definition file5 := mkFile "/changed/file" (Inline "" "file5") (Some 488%Z).

Definition mounts : Mounts := [("foo-image", "/foo-file", "file3")].

Definition gnaUnit := mkUnit gna_unit_name (Some false) None (Some "#gna") [] [].
Definition unit1 := mkUnit "unit1" (Some true) (Some CommandStart) (Some "#unit1")
  [mkDropIn "drop" "#unit1drop"] [].
Definition unit2 := mkUnit "unit2" (Some false) (Some CommandStop) (Some "#unit2") [] [].
Definition unit3 := mkUnit "unit3" None None None [mkDropIn "drop" "#unit3drop"] [file4].
Definition unit4 := mkUnit "unit4" (Some true) (Some CommandStart) (Some "#unit4")
  [mkDropIn "drop" "#unit4drop"] [].
Definition unit5 := mkUnit "unit5" (Some true) (Some CommandStart) (Some "#unit5")
  [mkDropIn "drop1" "#unit5drop1"; mkDropIn "drop2" "#unit5drop2"] [].
Definition unit5DropInsOnly := mkUnit "unit5" None None None
  [mkDropIn "extensionsdrop" "#unit5extensionsdrop"] [].
Definition unit6 := mkUnit "unit6" (Some true) None (Some "#unit6") [] [file3].
Definition unit7 := mkUnit "unit7" (Some true) None (Some "#unit7") [] [file5].

(** The operating system config of [BeforeEach]. *)
Definition osc1 : DesiredState + AssembleError :=
  assemble [file1] [unit1; unit2; unit5; unit5DropInsOnly; unit6; unit7]
           [file2] [unit3; unit4].

Definition state_of (r : DesiredState + AssembleError) : DesiredState :=
  match r with inl d => d | inr _ => empty_state end.

Definition desired1 := state_of osc1.

(** Updated config of "should reconcile the configuration when there is a
    previous OSC". *)
Definition unit2' := mkUnit "unit2" (Some true) (Some CommandStart) (Some "#unit2")
  [mkDropIn "dropdropdrop" "#unit2drop"] [].
Definition unit4' := mkUnit "unit4" (Some false) (Some CommandStart) (Some "#unit4") [] [].
Definition unit5' := mkUnit "unit5" (Some true) (Some CommandStart) (Some "#unit5")
  [mkDropIn "drop2" "#unit5drop2"] [].
Definition unit6' := mkUnit "unit6" (Some true) None (Some "#unit6") [] [].
Definition unit7' := mkUnit "unit7" (Some true) None (Some "#unit7") []
  [mkFile "/changed/file" (Inline "" "changeme") (Some 488%Z)].

Definition osc2 : DesiredState + AssembleError :=
  assemble [file1; file3] [unit2'; unit5'; unit6'; unit7'] [] [unit3; unit4'].
Definition desired2 := state_of osc2.

(** Config of "should call the cancel function when gardener-node-agent must
    be restarted itself". *)
Definition osc3 : DesiredState + AssembleError :=
  assemble [file1] [unit1; unit2; unit5; unit5DropInsOnly; unit6; unit7; gnaUnit]
           [file2] [unit3; unit4].
Definition desired3 := state_of osc3.

Definition plan1 := reconcile mounts desired1 empty_state.
Definition fs1 := exec_plan ∅ (plan_steps plan1).

(** The test changes the mode of unit2's file by hand before the update. *)
Definition fs1_chmod : FS := <[unit_path "unit2" := ("#unit2", 511%Z)]> fs1.
Definition plan2 := reconcile mounts desired2 desired1.
Definition fs2 := exec_plan fs1_chmod (plan_steps plan2).

Definition plan3 := reconcile mounts desired3 desired1.
Definition fs3 := exec_plan fs1 (plan_steps plan3).

End OSCControllerTest.

(** ** Small configurations for the claims *)

Module ClaimExamples.
Import OSCControllerTest.

Definition gna_enabled := mkUnit gna_unit_name (Some true) None (Some "#gna") [] [].
Definition gna_disabled := mkUnit gna_unit_name (Some false) None (Some "#gna") [] [].

(** C1: the own unit's enable flag flips and nothing else changes. *)
Definition gna_flip_desired := mkDesiredState ∅ {[gna_unit_name := gna_disabled]}.
Definition gna_flip_applied := mkDesiredState ∅ {[gna_unit_name := gna_enabled]}.

(** C3: a new unit without command and a new unit with [command: start]. *)
Definition svc_nocmd := mkUnit "svc" None None (Some "C") [] [].
Definition svc_start := mkUnit "new" (Some true) (Some CommandStart) (Some "N") [] [].
Definition new_units := mkDesiredState ∅ {["svc" := svc_nocmd; "new" := svc_start]}.

(** C4: [u] changes content only, [v] is new and declares no enable. *)
Definition u_old := mkUnit "u" (Some true) None (Some "old") [] [].
Definition u_new := mkUnit "u" (Some true) None (Some "new") [] [].
Definition v_noenable := mkUnit "v" None None (Some "V") [] [].
Definition enable_desired := mkDesiredState ∅ {["u" := u_new; "v" := v_noenable]}.
Definition enable_applied := mkDesiredState ∅ {["u" := u_old]}.

(** C5 (spec scenario): [svc] only flips [enable: false] to [enable: true]. *)
Definition svc_off := mkUnit "svc" (Some false) (Some CommandStart) (Some "C") [] [].
Definition svc_on := mkUnit "svc" (Some true) (Some CommandStart) (Some "C") [] [].
Definition enable_only_desired := mkDesiredState ∅ {["svc" := svc_on]}.
Definition enable_only_applied := mkDesiredState ∅ {["svc" := svc_off]}.


(** C6 (spec scenario): owner entry [u] with drop-in [A], extension entry
    [u] with drop-in [B]. *)
Definition dropA := mkDropIn "A" "#a".
Definition dropB := mkDropIn "B" "#b".
Definition owner_u := mkUnit "u" None None None [dropA] [].
Definition ext_u := mkUnit "u" None None None [dropB] [].
Definition merged_u := mkDesiredState ∅ {["u" := mkUnit "u" None None None [dropA; dropB] []]}.

(** C7 (spec scenario): extension entry [x] with a drop-in and no base. *)
Definition frag_x := mkUnit "x" None None None [dropA] [].
Definition orphan_x := mkDesiredState ∅ {["x" := frag_x]}.


End ClaimExamples.

Import ClaimExamples.

(** * Properties of the reconciler *)

(** ** Iterating over a map *)

Lemma occurrences_app ss1 ss2 s :
  occurrences (ss1 ++ ss2) s = occurrences ss1 s + occurrences ss2 s.
Proof. apply count_occ_app. Qed.

Lemma occurrences_perm ss1 ss2 s : ss1 ≡ₚ ss2 → occurrences ss1 s = occurrences ss2 s.
Proof. intros H. by apply Permutation_count_occ. Qed.

Lemma occurrences_not_elem ss s : s ∉ ss → occurrences ss s = 0.
Proof. intros H. apply count_occ_not_In. by rewrite <- list_elem_of_In. Qed.

Lemma occurrences_singleton_eq s : occurrences [s] s = 1.
Proof. unfold occurrences. simpl. by destruct (Step_eq_dec s s). Qed.

Lemma occurrences_pos ss s : occurrences ss s ≠ 0 ↔ s ∈ ss.
Proof.
  unfold occurrences. rewrite list_elem_of_In, (count_occ_In Step_eq_dec). lia.
Qed.

Section ForEach.
Context {A : Type}.
Implicit Types (m : gmap string A) (f : string → A → list Step).

Lemma for_each_empty f : for_each (∅ : gmap string A) f = [].
Proof. unfold for_each. by rewrite map_to_list_empty. Qed.

Lemma for_each_insert m i x f :
  m !! i = None → for_each (<[i:=x]> m) f ≡ₚ f i x ++ for_each m f.
Proof. intros H. unfold for_each. by rewrite (map_to_list_insert m i x H). Qed.

Lemma elem_of_for_each m f s :
  s ∈ for_each m f ↔ ∃ k v, m !! k = Some v ∧ s ∈ f k v.
Proof.
  unfold for_each. rewrite list_elem_of_In, in_flat_map. split.
  - intros ([k v] & Hin & Hs). exists k, v.
    apply list_elem_of_In in Hin, Hs. split; [by apply elem_of_map_to_list | done].
  - intros (k & v & Hk & Hs). exists (k, v). simpl.
    split; apply list_elem_of_In; [by apply elem_of_map_to_list | done].
Qed.

Lemma occurrences_for_each m f s n :
  (∀ k v, s ∈ f k v → k = n) →
  occurrences (for_each m f) s
  = match m !! n with Some v => occurrences (f n v) s | None => 0 end.
Proof.
  intros Hf. induction m as [|i x m Hi IH] using map_ind.
  - by rewrite for_each_empty, lookup_empty.
  - rewrite (occurrences_perm _ _ _ (for_each_insert m i x f Hi)), occurrences_app, IH.
    destruct (decide (i = n)) as [->|Hne].
    + rewrite lookup_insert_eq, Hi. lia.
    + rewrite lookup_insert_ne by done.
      rewrite (occurrences_not_elem (f i x)); [lia |].
      intros Hin. by apply Hne, (Hf i x).
Qed.

Lemma occurrences_for_each_0 m f s :
  (∀ k v, s ∉ f k v) → occurrences (for_each m f) s = 0.
Proof.
  intros Hf. apply occurrences_not_elem. rewrite elem_of_for_each.
  intros (k & v & _ & Hs). by apply (Hf k v).
Qed.

End ForEach.

(** ** Lookups in a change set *)

Lemma diag_None_eq {A B C} (f : option A → option B → option C) o1 o2 :
  f None None = None → diag_None f o1 o2 = f o1 o2.
Proof. by destruct o1, o2. Qed.

Lemma diff_files_changed_lookup ms d a p :
  cs_files_changed (diff ms d a) !! p = diff_file ms (ds_files a !! p) (ds_files d !! p).
Proof. simpl. rewrite lookup_merge. by apply diag_None_eq. Qed.

Lemma diff_files_removed_lookup ms d a p :
  cs_files_removed (diff ms d a) !! p = only_old (ds_files a !! p) (ds_files d !! p).
Proof. simpl. rewrite lookup_merge. by apply diag_None_eq. Qed.

Lemma diff_units_changed_lookup ms d a n :
  cs_units_changed (diff ms d a) !! n = diff_unit (ds_units a !! n) (ds_units d !! n).
Proof. simpl. rewrite lookup_merge. by apply diag_None_eq. Qed.

Lemma diff_units_removed_lookup ms d a n :
  cs_units_removed (diff ms d a) !! n = only_old (ds_units a !! n) (ds_units d !! n).
Proof. simpl. rewrite lookup_merge. by apply diag_None_eq. Qed.

(** ** Phases *)

Definition fs_step (s : Step) : bool :=
  match s with
  | WriteFile _ _ _ | ContentUnavailable _ | DeleteFile _ | DeleteDir _ => true
  | _ => false
  end.

Ltac split_in H :=
  repeat match type of H with
  | _ ∨ _ => destruct H as [H | H]
  | ∃ _, _ => destruct H as [? H]
  | _ ∧ _ => destruct H as [? H]
  | False => destruct H
  end.

Lemma unit_file_steps_fs n ou s : s ∈ unit_file_steps n ou → fs_step s = true.
Proof.
  revert s. apply Forall_forall. destruct ou as [old u]. unfold unit_file_steps.
  apply Forall_app; split.
  - destruct (unit_content u); repeat constructor.
  - destruct (unit_dropins u) as [|d l]; [repeat constructor |].
    apply Forall_app; split; apply Forall_forall; intros s Hs;
      apply list_elem_of_In, in_map_iff in Hs; destruct Hs as (? & <- & _); done.
Qed.

Lemma file_phase_fs ms cs s : s ∈ file_phase ms cs → fs_step s = true.
Proof.
  unfold file_phase. rewrite !elem_of_app, !elem_of_for_each.
  intros [(k & v & _ & Hs) | [(k & v & _ & Hs) | [(k & v & _ & Hs) | (k & v & _ & Hs)]]].
  - apply list_elem_of_singleton in Hs as ->. unfold file_write_step.
    by destruct (resolve ms v).
  - by apply list_elem_of_singleton in Hs as ->.
  - by eapply unit_file_steps_fs.
  - unfold removed_unit_file_steps in Hs. set_solver.
Qed.

Lemma occurrences_file_phase ms cs s :
  fs_step s = false → occurrences (file_phase ms cs) s = 0.
Proof.
  intros Hs. apply occurrences_not_elem. intros Hin.
  apply file_phase_fs in Hin. congruence.
Qed.

Lemma occurrences_plan ms cs s :
  fs_step s = false →
  occurrences (plan_steps (plan ms cs)) s
  = occurrences (enablement_phase cs) s + occurrences (reload_phase cs) s
    + occurrences (command_phase cs) s.
Proof.
  intros Hs. unfold plan; simpl. rewrite !occurrences_app, occurrences_file_phase by done.
  lia.
Qed.

Lemma enable_step_cases n u :
  enable_step n u = EnableUnit n ∨ enable_step n u = DisableUnit n.
Proof. unfold enable_step. repeat case_match; auto. Qed.

Lemma command_steps_cases n ou s :
  s ∈ command_steps n ou → s = StopUnit n ∨ s = RestartUnit n.
Proof.
  unfold command_steps. case_bool_decide; [set_solver |].
  intros Hs%list_elem_of_singleton. destruct (must_stop ou.2); auto.
Qed.

Lemma reload_phase_cases cs s : s ∈ reload_phase cs → s = DaemonReload.
Proof. unfold reload_phase. destruct (reload_needed cs); set_solver. Qed.

Ltac phase_cases :=
  repeat match goal with
  | |- ∀ _, _ => intro
  | |- _ → _ => intro
  | |- ¬ _ => intro
  | H : _ ∈ [_] |- _ => apply list_elem_of_singleton in H
  | H : _ ∈ [] |- _ => apply elem_of_nil in H; destruct H
  | H : _ ∈ command_steps _ _ |- _ => apply command_steps_cases in H as [H | H]
  | H : _ ∈ reload_phase _ |- _ => apply reload_phase_cases in H
  | H : _ = enable_step ?k ?u |- _ =>
      let E := fresh in destruct (enable_step_cases k u) as [E | E]; rewrite E in H; clear E
  end; try congruence.

Lemma occurrences_enable ms cs n :
  occurrences (plan_steps (plan ms cs)) (EnableUnit n)
  = match cs_units_changed cs !! n with
    | Some ou => occurrences [enable_step n ou.2] (EnableUnit n)
    | None => 0
    end.
Proof.
  rewrite occurrences_plan by done.
  unfold enablement_phase, command_phase. rewrite !occurrences_app.
  rewrite (occurrences_for_each _ _ _ n) by phase_cases.
  rewrite (occurrences_for_each_0 (cs_units_removed cs)) by phase_cases.
  rewrite (occurrences_for_each_0 (cs_units_changed cs) command_steps) by phase_cases.
  rewrite (occurrences_for_each_0 (cs_units_removed cs) (λ n _, [StopUnit n])) by phase_cases.
  rewrite (occurrences_not_elem (reload_phase cs)) by phase_cases.
  destruct (cs_units_changed cs !! n); lia.
Qed.

Lemma occurrences_disable ms cs n :
  occurrences (plan_steps (plan ms cs)) (DisableUnit n)
  = match cs_units_changed cs !! n with
    | Some ou => occurrences [enable_step n ou.2] (DisableUnit n)
    | None => 0
    end
  + match cs_units_removed cs !! n with Some _ => 1 | None => 0 end.
Proof.
  rewrite occurrences_plan by done.
  unfold enablement_phase, command_phase. rewrite !occurrences_app.
  rewrite (occurrences_for_each (cs_units_changed cs) _ _ n) by phase_cases.
  rewrite (occurrences_for_each (cs_units_removed cs) _ _ n) by phase_cases.
  rewrite (occurrences_for_each_0 (cs_units_changed cs) command_steps) by phase_cases.
  rewrite (occurrences_for_each_0 (cs_units_removed cs) (λ n _, [StopUnit n])) by phase_cases.
  rewrite (occurrences_not_elem (reload_phase cs)) by phase_cases.
  destruct (cs_units_changed cs !! n), (cs_units_removed cs !! n);
    rewrite ?occurrences_singleton_eq; lia.
Qed.

Lemma occurrences_restart ms cs n :
  occurrences (plan_steps (plan ms cs)) (RestartUnit n)
  = match cs_units_changed cs !! n with
    | Some ou => occurrences (command_steps n ou) (RestartUnit n)
    | None => 0
    end.
Proof.
  rewrite occurrences_plan by done.
  unfold enablement_phase, command_phase. rewrite !occurrences_app.
  rewrite (occurrences_for_each_0 (cs_units_changed cs)) by phase_cases.
  rewrite (occurrences_for_each_0 (cs_units_removed cs)) by phase_cases.
  rewrite (occurrences_for_each (cs_units_changed cs) command_steps _ n) by phase_cases.
  rewrite (occurrences_for_each_0 (cs_units_removed cs) (λ n _, [StopUnit n])) by phase_cases.
  rewrite (occurrences_not_elem (reload_phase cs)) by phase_cases.
  destruct (cs_units_changed cs !! n); lia.
Qed.

Lemma occurrences_stop ms cs n :
  occurrences (plan_steps (plan ms cs)) (StopUnit n)
  = match cs_units_changed cs !! n with
    | Some ou => occurrences (command_steps n ou) (StopUnit n)
    | None => 0
    end
  + match cs_units_removed cs !! n with Some _ => 1 | None => 0 end.
Proof.
  rewrite occurrences_plan by done.
  unfold enablement_phase, command_phase. rewrite !occurrences_app.
  rewrite (occurrences_for_each_0 (cs_units_changed cs)) by phase_cases.
  rewrite (occurrences_for_each_0 (cs_units_removed cs)) by phase_cases.
  rewrite (occurrences_for_each (cs_units_changed cs) command_steps _ n) by phase_cases.
  rewrite (occurrences_for_each (cs_units_removed cs) (λ n _, [StopUnit n]) _ n) by phase_cases.
  rewrite (occurrences_not_elem (reload_phase cs)) by phase_cases.
  destruct (cs_units_changed cs !! n), (cs_units_removed cs !! n);
    rewrite ?occurrences_singleton_eq; lia.
Qed.

Lemma occurrences_start ms cs n : occurrences (plan_steps (plan ms cs)) (StartUnit n) = 0.
Proof.
  rewrite occurrences_plan by done.
  unfold enablement_phase, command_phase. rewrite !occurrences_app.
  rewrite (occurrences_for_each_0 (cs_units_changed cs)) by phase_cases.
  rewrite (occurrences_for_each_0 (cs_units_removed cs)) by phase_cases.
  rewrite (occurrences_for_each_0 (cs_units_changed cs) command_steps) by phase_cases.
  rewrite (occurrences_for_each_0 (cs_units_removed cs) (λ n _, [StopUnit n])) by phase_cases.
  rewrite (occurrences_not_elem (reload_phase cs)) by phase_cases.
  lia.
Qed.

Lemma occurrences_reload ms cs :
  occurrences (plan_steps (plan ms cs)) DaemonReload = if reload_needed cs then 1 else 0.
Proof.
  rewrite occurrences_plan by done.
  unfold enablement_phase, command_phase. rewrite !occurrences_app.
  rewrite (occurrences_for_each_0 (cs_units_changed cs)) by phase_cases.
  rewrite (occurrences_for_each_0 (cs_units_removed cs)) by phase_cases.
  rewrite (occurrences_for_each_0 (cs_units_changed cs) command_steps) by phase_cases.
  rewrite (occurrences_for_each_0 (cs_units_removed cs) (λ n _, [StopUnit n])) by phase_cases.
  unfold reload_phase. destruct (reload_needed cs); rewrite ?occurrences_singleton_eq;
    unfold occurrences; simpl; lia.
Qed.

(** ** How the diff classifies one unit *)

Lemma changed_unit_lookup ms d a n u :
  ds_units d !! n = Some u → ds_units a !! n ≠ Some u →
  cs_units_changed (diff ms d a) !! n = Some (ds_units a !! n, u).
Proof.
  intros Hd Ha. rewrite diff_units_changed_lookup, Hd.
  destruct (ds_units a !! n) as [v|]; simpl; [| done].
  case_bool_decide; [congruence | done].
Qed.

Lemma unchanged_unit_lookup ms d a n :
  ds_units d !! n = ds_units a !! n →
  cs_units_changed (diff ms d a) !! n = None.
Proof.
  intros H. rewrite diff_units_changed_lookup, H.
  destruct (ds_units a !! n); simpl; [case_bool_decide; congruence | done].
Qed.

Lemma present_not_removed ms d a n u :
  ds_units d !! n = Some u → cs_units_removed (diff ms d a) !! n = None.
Proof. intros H. rewrite diff_units_removed_lookup, H. by destruct (ds_units a !! n). Qed.

Lemma unchanged_not_removed ms d a n :
  ds_units d !! n = ds_units a !! n → cs_units_removed (diff ms d a) !! n = None.
Proof. intros H. rewrite diff_units_removed_lookup, H. by destruct (ds_units a !! n). Qed.

Lemma removed_unit_lookup ms d a n v :
  ds_units a !! n = Some v → ds_units d !! n = None →
  cs_units_removed (diff ms d a) !! n = Some v ∧ cs_units_changed (diff ms d a) !! n = None.
Proof.
  intros Ha Hd. rewrite diff_units_removed_lookup, diff_units_changed_lookup, Ha, Hd. done.
Qed.

(** ** The diff of a state with itself *)

Lemma diff_self ms d : diff ms d d = empty_changeset.
Proof.
  unfold diff, empty_changeset. f_equal; apply map_eq; intros i;
    rewrite lookup_merge, lookup_empty; destruct (_ !! i) as [x|]; simpl; try done.
  - unfold file_differs. rewrite !bool_decide_eq_false_2 by congruence. done.
  - by rewrite bool_decide_eq_true_2.
Qed.

Lemma plan_empty ms : plan ms empty_changeset = mkPlan [] false.
Proof. reflexivity. Qed.

(** ** When the manager is reloaded *)

Lemma reload_needed_spec cs :
  reload_needed cs = true ↔
  (∃ n ou, cs_units_changed cs !! n = Some ou ∧ unit_needs_reload ou = true)
  ∨ (∃ n v, cs_units_removed cs !! n = Some v).
Proof.
  unfold reload_needed. rewrite orb_true_iff, existsb_exists, negb_true_iff.
  rewrite bool_decide_eq_false. split.
  - intros [([n ou] & Hin & Hr) | Hne].
    + left. exists n, ou. split; [| done]. apply elem_of_map_to_list.
      by apply list_elem_of_In.
    + right. apply map_choose in Hne as (n & v & Hv). eauto.
  - intros [(n & ou & Hl & Hr) | (n & v & Hv)].
    + left. exists (n, ou). split; [| done]. apply list_elem_of_In.
      by apply elem_of_map_to_list.
    + right. intros He. rewrite He, lookup_empty in Hv. done.
Qed.

Lemma reload_needed_diff ms d a :
  reload_needed (diff ms d a) = true ↔
  ∃ n, (is_Some (ds_units d !! n) ∧ ds_units a !! n = None)
     ∨ (is_Some (ds_units a !! n) ∧ ds_units d !! n = None)
     ∨ (∃ u v, ds_units d !! n = Some u ∧ ds_units a !! n = Some v
               ∧ (unit_content u ≠ unit_content v ∨ unit_dropins u ≠ unit_dropins v)).
Proof.
  rewrite reload_needed_spec. split.
  - intros [(n & ou & Hl & Hr) | (n & v & Hv)]; exists n.
    + rewrite diff_units_changed_lookup in Hl.
      destruct (ds_units a !! n) as [v|] eqn:Ha, (ds_units d !! n) as [u|] eqn:Hd;
        simpl in Hl; try discriminate.
      * case_bool_decide; [discriminate |]. injection Hl as <-.
        unfold unit_needs_reload in Hr. simpl in Hr.
        apply orb_true_iff in Hr as [Hr | Hr]; apply bool_decide_eq_true in Hr;
          right; right; eauto 10.
      * left. eauto.
    + rewrite diff_units_removed_lookup in Hv.
      destruct (ds_units a !! n), (ds_units d !! n); simpl in Hv; try discriminate.
      right; left. eauto.
  - intros [n [[[u Hd] Ha] | [[[v Ha] Hd] | (u & v & Hd & Ha & Hc)]]].
    + left. exists n, (None, u). rewrite diff_units_changed_lookup, Hd, Ha. done.
    + right. exists n, v. rewrite diff_units_removed_lookup, Hd, Ha. done.
    + left. exists n, (Some v, u). rewrite diff_units_changed_lookup, Hd, Ha. simpl.
      case_bool_decide as Heq; [subst; destruct Hc; congruence |]. split; [done |].
      unfold unit_needs_reload. simpl. apply orb_true_iff.
      destruct Hc; [left | right]; apply bool_decide_eq_true; congruence.
Qed.

(** ** Assembler *)

Lemma units_named_app n l1 l2 :
  units_named n (l1 ++ l2) = units_named n l1 ++ units_named n l2.
Proof. unfold units_named. apply List.filter_app. Qed.

Lemma units_named_name n l u : In u (units_named n l) → unit_name u = n.
Proof. unfold units_named. rewrite filter_In. intros [_ H]. by apply bool_decide_eq_true in H. Qed.

Lemma units_named_nonempty n l u :
  In u l → unit_name u = n → units_named n l ≠ [].
Proof.
  intros Hin Hn Hnil. assert (In u (units_named n l)) as Hu.
  { unfold units_named. apply filter_In. split; [done | by apply bool_decide_eq_true]. }
  rewrite Hnil in Hu. done.
Qed.

Lemma add_unit_lookup m u n :
  add_unit m u !! n =
  if bool_decide (unit_name u = n)
  then Some match m !! n with None => u | Some b => merge_unit b u end
  else m !! n.
Proof.
  unfold add_unit. case_bool_decide as Hn.
  - subst n. destruct (m !! unit_name u); by rewrite lookup_insert_eq.
  - destruct (m !! unit_name u); by rewrite lookup_insert_ne.
Qed.

Lemma add_units_lookup l m n :
  foldl add_unit m l !! n =
  match m !! n with
  | Some b => Some (foldl merge_unit b (units_named n l))
  | None =>
      match units_named n l with
      | [] => None
      | u :: r => Some (foldl merge_unit u r)
      end
  end.
Proof.
  revert m. induction l as [|u l IH]; intros m; simpl.
  - by destruct (m !! n).
  - rewrite IH, add_unit_lookup. unfold units_named at 2 3; simpl.
    case_bool_decide as Hn; simpl; [| by destruct (m !! n)].
    by destruct (m !! n).
Qed.

Lemma merge_units_lookup ou eu n :
  merge_units ou eu !! n =
  match units_named n (ou ++ eu) with
  | [] => None
  | u :: r => Some (foldl merge_unit u r)
  end.
Proof. unfold merge_units. by rewrite add_units_lookup, lookup_empty. Qed.

Lemma merge_fold_name b l : unit_name (foldl merge_unit b l) = unit_name b.
Proof. revert b. induction l as [|u l IH]; intros b; simpl; [done |]. by rewrite IH. Qed.

Lemma merge_fold_dropins b l :
  unit_dropins (foldl merge_unit b l) = unit_dropins b ++ concat (map unit_dropins l).
Proof.
  revert b. induction l as [|u l IH]; intros b; simpl.
  - by rewrite app_nil_r.
  - rewrite IH. simpl. by rewrite app_assoc.
Qed.

Lemma is_fragment_spec u :
  is_fragment u = true ↔ unit_content u = None ∧ unit_enable u = None.
Proof. unfold is_fragment. destruct (unit_content u), (unit_enable u); naive_solver. Qed.

Lemma merge_fold_fragment b l :
  is_fragment b = true → Forall (λ u, is_fragment u = true) l →
  is_fragment (foldl merge_unit b l) = true.
Proof.
  revert b. induction l as [|u l IH]; intros b Hb Hl; simpl; [done |].
  inversion Hl as [|? ? Hu Hl']; subst. apply IH; [| done].
  unfold merge_unit. rewrite Hu, Hb. simpl.
  apply is_fragment_spec in Hb as [Hc He]. unfold is_fragment. simpl. by rewrite Hc, He.
Qed.

Lemma merge_units_key ou eu k v : merge_units ou eu !! k = Some v → unit_name v = k.
Proof.
  rewrite merge_units_lookup. destruct (units_named k (ou ++ eu)) as [|u r] eqn:E; [done |].
  intros [= <-]. rewrite merge_fold_name. apply (units_named_name k (ou ++ eu)).
  rewrite E. by left.
Qed.

Lemma assemble_inl of ou ef eu d :
  assemble of ou ef eu = inl d → ds_units d = merge_units ou eu.
Proof. unfold assemble. destruct (collect_files _); [|done]. by intros [= <-]. Qed.

Lemma add_files_inr l e : foldl add_file (inr e) l = inr e.
Proof. induction l; simpl; done. Qed.

Lemma add_files_inl_1 l m m' :
  foldl add_file (inl m) l = inl m' →
  NoDup (map file_path l) ∧ ∀ f, f ∈ l → m !! file_path f = None.
Proof.
  revert m. induction l as [|f l IH]; intros m; simpl.
  - intros _. split; [constructor | set_solver].
  - destruct (m !! file_path f) as [g|] eqn:Hf.
    + by rewrite add_files_inr.
    + intros H. destruct (IH _ H) as [Hnd Hl]. split.
      * constructor; [| done]. intros Hin.
        apply list_elem_of_In, in_map_iff in Hin as (g & Hg & Hin).
        apply list_elem_of_In in Hin.
        specialize (Hl g Hin). rewrite Hg, lookup_insert_eq in Hl. done.
      * intros g [-> | Hin]%elem_of_cons; [done |].
        specialize (Hl g Hin). destruct (decide (file_path f = file_path g)) as [Heq|Hne].
        { by rewrite Heq, lookup_insert_eq in Hl. }
        by rewrite lookup_insert_ne in Hl.
Qed.

Lemma add_files_inl_2 l m :
  NoDup (map file_path l) → (∀ f, f ∈ l → m !! file_path f = None) →
  ∃ m', foldl add_file (inl m) l = inl m'.
Proof.
  revert m. induction l as [|f l IH]; intros m Hnd Hl; simpl; [by eexists |].
  inversion Hnd as [|? ? Hnin Hnd']; subst.
  rewrite (Hl f); [| by left]. apply IH; [done |].
  intros g Hin. rewrite lookup_insert_ne.
  - apply Hl. by right.
  - intros Heq. apply Hnin. rewrite Heq. apply list_elem_of_In, in_map.
    by apply list_elem_of_In.
Qed.

Lemma collect_files_error l : (∃ e, collect_files l = inr e) ↔ ¬ NoDup (map file_path l).
Proof.
  unfold collect_files. split.
  - intros [e He] Hnd. destruct (add_files_inl_2 l ∅ Hnd) as [m' Hm'].
    { intros f _. apply lookup_empty. }
    congruence.
  - intros Hnd. destruct (foldl add_file (inl ∅) l) as [m'|e] eqn:E; [| by eexists].
    exfalso. apply Hnd. by apply (add_files_inl_1 l ∅ m').
Qed.

Lemma add_files_lookup l m m' p f :
  foldl add_file (inl m) l = inl m' →
  m' !! p = Some f ↔ m !! p = Some f ∨ (f ∈ l ∧ file_path f = p).
Proof.
  revert m. induction l as [|f0 l IH]; intros m; simpl.
  - intros [= ->]. split; [by left | intros [H | [H _]]; [done | by apply elem_of_nil in H]].
  - destruct (m !! file_path f0) as [g|] eqn:Hf0; [by rewrite add_files_inr |].
    intros H. rewrite (IH _ H), elem_of_cons.
    destruct (decide (p = file_path f0)) as [-> | Hne].
    + rewrite lookup_insert_eq, Hf0. split.
      * intros [[= <-] | [Hin Hp]]; [by right; split; [left |] | by right; split; [right |]].
      * intros [[=] | [[-> | Hin] Hp]]; [by left | by right].
    + rewrite lookup_insert_ne by congruence. split.
      * intros [Hm | [Hin Hp]]; [by left | by right; split; [right |]].
      * intros [Hm | [[-> | Hin] Hp]]; [by left | congruence | by right].
Qed.

(** ** Steps of a plan *)

Lemma plan_removed_steps ms cs n v :
  cs_units_removed cs !! n = Some v →
  StopUnit n ∈ plan_steps (plan ms cs) ∧ DeleteFile (unit_path n) ∈ plan_steps (plan ms cs)
  ∧ DeleteDir (dropin_dir n) ∈ plan_steps (plan ms cs).
Proof.
  intros Hr. simpl. unfold file_phase, command_phase. rewrite !elem_of_app, !elem_of_for_each.
  split; [| split].
  - do 4 right. exists n, v. split; [done | by left].
  - left. do 3 right. exists n, v. split; [done | by left].
  - left. do 3 right. exists n, v. split; [done | by right; left].
Qed.

Lemma plan_file_write ms cs p f :
  cs_files_changed cs !! p = Some f → file_write_step ms p f ∈ plan_steps (plan ms cs).
Proof.
  intros Hf. simpl. unfold file_phase. rewrite !elem_of_app, !elem_of_for_each.
  left. left. exists p, f. split; [done | by left].
Qed.

(** ** Strings and paths *)

Lemma string_app_nil_l s : "" +s+ s = s.
Proof. reflexivity. Qed.

Lemma string_app_cons x a b : String x a +s+ b = String x (a +s+ b).
Proof. reflexivity. Qed.

Ltac string_app_simpl := rewrite ?string_app_nil_l, ?string_app_cons.

Lemma string_app_assoc a b c : (a +s+ b) +s+ c = a +s+ (b +s+ c).
Proof. induction a as [|x a IH]; string_app_simpl; [done | by rewrite IH]. Qed.

Lemma string_length_app a b : String.length (a +s+ b) = String.length a + String.length b.
Proof. induction a as [|x a IH]; string_app_simpl; simpl; [done | by rewrite IH]. Qed.

Lemma string_app_inj_r a b s : a +s+ s = b +s+ s → a = b.
Proof.
  revert b. induction a as [|x a IH]; intros [|y b] H; string_app_simpl.
  - done.
  - rewrite string_app_nil_l, string_app_cons in H.
    apply (f_equal String.length) in H. simpl in H. rewrite string_length_app in H. lia.
  - rewrite string_app_nil_l, string_app_cons in H.
    apply (f_equal String.length) in H. simpl in H. rewrite string_length_app in H. lia.
  - rewrite !string_app_cons in H. injection H as -> H. by rewrite (IH b H).
Qed.

Lemma str_prefix_app_r p r : str_prefix p (p +s+ r) = true.
Proof.
  induction p as [|x p IH]; string_app_simpl; simpl; [by destruct r |].
  rewrite IH, bool_decide_eq_true_2 by done. done.
Qed.

Lemma str_prefix_spec p s : str_prefix p s = true ↔ ∃ r, s = p +s+ r.
Proof.
  split.
  - revert s. induction p as [|x p IH]; intros [|y s] H; simpl in H.
    + by exists EmptyString.
    + by exists (String y s).
    + done.
    + apply andb_true_iff in H as [Hxy Hp]. apply bool_decide_eq_true in Hxy as ->.
      destruct (IH s Hp) as [r ->]. by exists r.
  - intros [r ->]. apply str_prefix_app_r.
Qed.

Lemma str_prefix_app_l p a b : str_prefix (p +s+ a) (p +s+ b) = str_prefix a b.
Proof.
  induction p as [|x p IH]; string_app_simpl; simpl; [done |].
  rewrite bool_decide_eq_true_2 by done. exact IH.
Qed.

Lemma has_slash_app a b : has_slash (a +s+ b) = has_slash a || has_slash b.
Proof. induction a as [|x a IH]; string_app_simpl; simpl; [done | by rewrite IH, orb_assoc]. Qed.

Lemma has_slash_sep a r : has_slash (a +s+ String "/" r) = true.
Proof.
  rewrite has_slash_app. cbn [has_slash]. rewrite bool_decide_eq_true_2 by done.
  by destruct (has_slash a).
Qed.

Lemma has_slash_dot_d n : has_slash (n +s+ ".d") = has_slash n.
Proof. rewrite has_slash_app. by destruct (has_slash n). Qed.

(** Splitting at the first separator. *)
Lemma slash_split a b r r' :
  has_slash a = false → has_slash b = false →
  a +s+ String "/" r = b +s+ String "/" r' → a = b ∧ r = r'.
Proof.
  revert b. induction a as [|x a IH]; intros [|y b] Ha Hb H;
    rewrite ?string_app_nil_l, ?string_app_cons in H.
  - by injection H as ->.
  - injection H as <- _. cbn [has_slash] in Hb. rewrite bool_decide_eq_true_2 in Hb by done.
    done.
  - injection H as -> _. cbn [has_slash] in Ha. rewrite bool_decide_eq_true_2 in Ha by done.
    done.
  - injection H as -> H. cbn [has_slash] in Ha, Hb.
    apply orb_false_iff in Ha as [_ Ha]. apply orb_false_iff in Hb as [_ Hb].
    destruct (IH b Ha Hb H) as [-> ->]. done.
Qed.

Lemma list_ascii_of_string_app a b :
  list_ascii_of_string (a +s+ b) = list_ascii_of_string a ++ list_ascii_of_string b.
Proof. induction a as [|x a IH]; string_app_simpl; simpl; [done | by rewrite IH]. Qed.

Lemma ends_with_dot_d_app m : ends_with_dot_d (m +s+ ".d") = true.
Proof.
  unfold ends_with_dot_d. rewrite list_ascii_of_string_app, rev_app_distr. reflexivity.
Qed.

Lemma unit_path_root n : unit_path n = unit_root +s+ n.
Proof. reflexivity. Qed.

Lemma dropin_dir_root n : dropin_dir n = unit_root +s+ (n +s+ ".d").
Proof. reflexivity. Qed.

Lemma dropin_dir_sep_root n : dropin_dir n +s+ "/" = unit_root +s+ ((n +s+ ".d") +s+ "/").
Proof. reflexivity. Qed.

Lemma dropin_path_root n x : dropin_path n x = unit_root +s+ ((n +s+ ".d") +s+ String "/" x).
Proof. reflexivity. Qed.

Lemma root_app_inj a b : unit_root +s+ a = unit_root +s+ b → a = b.
Proof. apply (inj (String.append unit_root)). Qed.

Lemma unit_path_inj m n : unit_path m = unit_path n → m = n.
Proof. rewrite (unit_path_root m), (unit_path_root n). apply root_app_inj. Qed.

Lemma dropin_path_ne_unit_path m n x : has_slash n = false → dropin_path m x ≠ unit_path n.
Proof.
  intros Hn H. rewrite (unit_path_root n), (dropin_path_root m x) in H. apply root_app_inj in H.
  rewrite <- H, has_slash_sep in Hn. discriminate.
Qed.

Lemma unit_path_not_in_dropin_dir m n :
  has_slash n = false → ends_with_dot_d n = false → in_dir (dropin_dir m) (unit_path n) = false.
Proof.
  intros Hn Hd. unfold in_dir. apply orb_false_iff. split.
  - apply bool_decide_eq_false_2. rewrite (unit_path_root n), (dropin_dir_root m). intros H.
    apply root_app_inj in H. rewrite H, ends_with_dot_d_app in Hd. discriminate.
  - rewrite (unit_path_root n), (dropin_dir_sep_root m), str_prefix_app_l.
    destruct (str_prefix _ n) eqn:E; [| done]. apply str_prefix_spec in E as [r ->].
    rewrite (string_app_assoc (m +s+ ".d") "/" r) in Hn.
    change ("/" +s+ r) with (String "/" r) in Hn.
    rewrite has_slash_sep in Hn. discriminate.
Qed.


Lemma dropin_path_inj m n x y :
  has_slash m = false → has_slash n = false →
  dropin_path m y = dropin_path n x → m = n ∧ y = x.
Proof.
  intros Hm Hn H. rewrite (dropin_path_root m y), (dropin_path_root n x) in H.
  apply root_app_inj in H.
  apply slash_split in H as [H ->]; [| by rewrite has_slash_dot_d ..].
  split; [by apply string_app_inj_r in H | done].
Qed.

Lemma dropin_path_in_dropin_dir m n x :
  has_slash m = false → has_slash n = false →
  in_dir (dropin_dir m) (dropin_path n x) = true → m = n.
Proof.
  intros Hm Hn H. unfold in_dir in H. apply orb_true_iff in H as [H | H].
  - apply bool_decide_eq_true in H. rewrite (dropin_path_root n x), (dropin_dir_root m) in H.
    apply root_app_inj in H. apply (f_equal has_slash) in H.
    rewrite has_slash_sep, has_slash_dot_d, Hm in H. discriminate.
  - rewrite (dropin_path_root n x), (dropin_dir_sep_root m), str_prefix_app_l in H.
    apply str_prefix_spec in H as [r H]. rewrite (string_app_assoc (m +s+ ".d") "/" r) in H.
    change ("/" +s+ r) with (String "/" r) in H.
    apply slash_split in H as [H _]; [| by rewrite has_slash_dot_d ..].
    symmetry. by apply string_app_inj_r in H.
Qed.

Lemma root_prefix_unit_path n : str_prefix unit_root (unit_path n) = true.
Proof. rewrite (unit_path_root n). apply str_prefix_app_r. Qed.

Lemma root_prefix_dropin_path n x : str_prefix unit_root (dropin_path n x) = true.
Proof. rewrite (dropin_path_root n x). apply str_prefix_app_r. Qed.


(** ** Executing steps *)

Lemma exec_step_untouched fs s k : touches k s = false → exec_step fs s !! k = fs !! k.
Proof.
  destruct s as [p c m | p | p | d | n | n | | n | n | n]; simpl; intros Ht; try done.
  - apply bool_decide_eq_false in Ht. by rewrite lookup_insert_ne.
  - apply bool_decide_eq_false in Ht. by rewrite lookup_delete_ne.
  - destruct (fs !! k) as [v|] eqn:E.
    + apply map_lookup_filter_Some. split; [done | exact Ht].
    + apply map_lookup_filter_None. by left.
Qed.

Lemma exec_plan_written fs ss k c m :
  (∀ s, s ∈ ss → touches k s = true → s = WriteFile k c m) →
  fs !! k = Some (c, m) ∨ WriteFile k c m ∈ ss →
  exec_plan fs ss !! k = Some (c, m).
Proof.
  unfold exec_plan. revert fs. induction ss as [|s ss IH]; intros fs Hss Hinit; simpl.
  - destruct Hinit as [H | H]; [done | by apply elem_of_nil in H].
  - apply IH.
    + intros s' Hs'. apply Hss. apply elem_of_cons. by right.
    + destruct (touches k s) eqn:Ht.
      * left. assert (s = WriteFile k c m) as ->.
        { apply Hss; [apply elem_of_cons; by left | done]. }
        simpl. by rewrite lookup_insert_eq.
      * rewrite exec_step_untouched by done. destruct Hinit as [H | H]; [by left |].
        apply elem_of_cons in H as [<- | H]; [| by right].
        unfold touches in Ht. rewrite bool_decide_eq_true_2 in Ht; done.
Qed.

(** ** Where a plan touches the filesystem *)

Lemma unit_file_steps_cases m old w s :
  s ∈ unit_file_steps m (old, w) →
  (∃ c, unit_content w = Some c ∧ s = WriteFile (unit_path m) c default_file_permissions) ∨
  (unit_dropins w = [] ∧ s = DeleteDir (dropin_dir m)) ∨
  (∃ y, y ∈ stale_dropins old w ∧ s = DeleteFile (dropin_path m y)) ∨
  (∃ dr, dr ∈ unit_dropins w ∧
     s = WriteFile (dropin_path m (dropin_name dr)) (dropin_content dr) default_file_permissions).
Proof.
  unfold unit_file_steps. rewrite elem_of_app. intros [Hs | Hs].
  - destruct (unit_content w) eqn:E; [| by apply elem_of_nil in Hs].
    apply list_elem_of_singleton in Hs. left. eauto.
  - destruct (unit_dropins w) as [|d0 ds] eqn:E.
    + apply list_elem_of_singleton in Hs. right; left. done.
    + rewrite elem_of_app in Hs.
      destruct Hs as [Hs | Hs]; apply list_elem_of_In, in_map_iff in Hs as (x & <- & Hx);
        apply list_elem_of_In in Hx.
      * right; right; left. eauto.
      * right; right; right. exists x. split; [exact Hx | done].
Qed.

Lemma unit_file_steps_content n old u c :
  unit_content u = Some c →
  WriteFile (unit_path n) c default_file_permissions ∈ unit_file_steps n (old, u).
Proof. intros Hc. unfold unit_file_steps. rewrite Hc. apply elem_of_app. left. by left. Qed.

Lemma unit_file_steps_dropin n old u dr :
  dr ∈ unit_dropins u →
  WriteFile (dropin_path n (dropin_name dr)) (dropin_content dr) default_file_permissions
    ∈ unit_file_steps n (old, u).
Proof.
  intros Hdr. unfold unit_file_steps. apply elem_of_app. right.
  destruct (unit_dropins u) as [|d0 ds] eqn:E; [by apply elem_of_nil in Hdr |].
  apply elem_of_app. right. apply list_elem_of_In, in_map_iff. exists dr. split; [done |].
  by apply list_elem_of_In.
Qed.


Lemma plan_touch ms cs k s :
  s ∈ plan_steps (plan ms cs) → touches k s = true →
  (∃ p f, cs_files_changed cs !! p = Some f ∧ s = file_write_step ms p f) ∨
  (∃ p f, cs_files_removed cs !! p = Some f ∧ s = DeleteFile p) ∨
  (∃ m ou, cs_units_changed cs !! m = Some ou ∧ s ∈ unit_file_steps m ou) ∨
  (∃ m v, cs_units_removed cs !! m = Some v ∧
          (s = DeleteFile (unit_path m) ∨ s = DeleteDir (dropin_dir m))).
Proof.
  intros Hs Ht. assert (Hfs : fs_step s = true) by (destruct s; done).
  simpl in Hs. apply elem_of_app in Hs as [Hs | Hs].
  - unfold file_phase in Hs. rewrite !elem_of_app, !elem_of_for_each in Hs.
    destruct Hs as [(p & f & Hp & Hs) | [(p & f & Hp & Hs) | [(m & ou & Hm & Hs) | (m & v & Hm & Hs)]]].
    + left. exists p, f. split; [done |]. by apply list_elem_of_singleton in Hs.
    + right; left. exists p, f. split; [done |]. by apply list_elem_of_singleton in Hs.
    + right; right; left. eauto.
    + right; right; right. exists m, v. split; [done |].
      unfold removed_unit_file_steps in Hs. set_solver.
  - exfalso. unfold enablement_phase, command_phase in Hs.
    rewrite !elem_of_app, !elem_of_for_each in Hs.
    destruct Hs as [[(? & ? & _ & Hs) | (? & ? & _ & Hs)] | [Hs | [(? & ? & _ & Hs) | (? & ? & _ & Hs)]]];
      phase_cases; subst; simpl in Hfs; discriminate.
Qed.

Lemma plan_unit_file_step ms cs n ou s :
  cs_units_changed cs !! n = Some ou → s ∈ unit_file_steps n ou → s ∈ plan_steps (plan ms cs).
Proof.
  intros Hn Hs. simpl. unfold file_phase. rewrite !elem_of_app, !elem_of_for_each.
  left. right; right; left. eauto.
Qed.

Lemma changed_unit_desired ms d a m ou :
  cs_units_changed (diff ms d a) !! m = Some ou → ds_units d !! m = Some ou.2.
Proof.
  rewrite diff_units_changed_lookup.
  destruct (ds_units a !! m), (ds_units d !! m); simpl; try case_bool_decide;
    intros Hc; simplify_eq; done.
Qed.


Lemma changed_file_desired ms d a p f :
  cs_files_changed (diff ms d a) !! p = Some f → ds_files d !! p = Some f.
Proof.
  rewrite diff_files_changed_lookup. unfold diff_file.
  destruct (ds_files a !! p), (ds_files d !! p); try case_match; intros Hc; simplify_eq; done.
Qed.


Lemma file_write_step_touches ms p f k : touches k (file_write_step ms p f) = true → p = k.
Proof.
  unfold file_write_step. destruct (resolve ms f); simpl; [| done].
  by intros ?%bool_decide_eq_true.
Qed.

(** ** The unit-file layout across one execution *)


(** ** What the test's helpers observe *)

Lemma dir_exists_b_spec fs d : dir_exists_b fs d = true ↔ dir_exists fs d.
Proof.
  unfold dir_exists_b, dir_exists. rewrite existsb_exists. split.
  - intros ([k v] & Hin & Hp). exists k, v. split; [| done].
    apply elem_of_map_to_list. by apply list_elem_of_In.
  - intros (k & v & Hk & Hp). exists (k, v). split; [| done].
    apply list_elem_of_In. by apply elem_of_map_to_list.
Qed.

Lemma assertNoDirectoryOnDisk_spec fs d :
  assertNoDirectoryOnDisk fs d = true ↔ ¬ dir_exists fs d.
Proof.
  unfold assertNoDirectoryOnDisk. rewrite negb_true_iff, <- dir_exists_b_spec.
  destruct (dir_exists_b fs d); naive_solver.
Qed.

Lemma assertNoFileOnDisk_spec fs p :
  assertNoFileOnDisk fs p = true ↔ fs !! p = None ∧ ¬ dir_exists fs p.
Proof.
  unfold assertNoFileOnDisk. rewrite andb_true_iff, bool_decide_eq_true, negb_true_iff,
    <- dir_exists_b_spec.
  destruct (dir_exists_b fs p); naive_solver.
Qed.

Lemma assertFileOnDisk_spec fs p c m : assertFileOnDisk fs p c m = true ↔ fs !! p = Some (c, m).
Proof. unfold assertFileOnDisk. apply bool_decide_eq_true. Qed.

Lemma files_on_disk_spec ms fs st :
  files_on_disk ms fs st = true ↔
  ∀ p f c, ds_files st !! p = Some f → resolve ms f = Some c → fs !! p = Some (c, file_mode f).
Proof.
  unfold files_on_disk. rewrite bool_decide_eq_true. split.
  - intros H p f c Hp Hc. specialize (H p f Hp). simpl in H. rewrite Hc in H.
    by apply assertFileOnDisk_spec.
  - intros H p f Hp. simpl. destruct (resolve ms f) as [c|] eqn:Hc; [| done].
    apply assertFileOnDisk_spec. eauto.
Qed.

(** ** Keys a plan leaves empty *)

Lemma exec_plan_absent fs ss k :
  (∀ s c m, s ∈ ss → s ≠ WriteFile k c m) →
  fs !! k = None ∨ DeleteFile k ∈ ss ∨ (∃ d, DeleteDir d ∈ ss ∧ in_dir d k = true) →
  exec_plan fs ss !! k = None.
Proof.
  unfold exec_plan. revert fs. induction ss as [|s ss IH]; intros fs Hw Hinit; simpl.
  - destruct Hinit as [H | [H | (d & H & _)]]; [done | by apply elem_of_nil in H ..].
  - apply IH.
    + intros s' c m Hs'. apply Hw. apply elem_of_cons. by right.
    + assert (Hstep : fs !! k = None → exec_step fs s !! k = None).
      { intros Hk. destruct (touches k s) eqn:Ht; [| by rewrite exec_step_untouched].
        destruct s as [p c m | p | p | d | n | n | | n | n | n]; cbn [touches] in Ht;
          try discriminate; simpl.
        - apply bool_decide_eq_true in Ht as ->. exfalso.
          by apply (Hw (WriteFile k c m) c m); [apply elem_of_cons; left |].
        - apply bool_decide_eq_true in Ht as ->. apply lookup_delete_eq.
        - apply map_lookup_filter_None. by left. }
      destruct Hinit as [Hk | [Hin | (d & Hin & Hd)]].
      * left. by apply Hstep.
      * apply elem_of_cons in Hin as [<- | Hin]; [left; apply lookup_delete_eq | right; by left].
      * apply elem_of_cons in Hin as [<- | Hin].
        -- left. simpl. apply map_lookup_filter_None. right. intros v _ H. simpl in H.
           congruence.
        -- right; right. eauto.
Qed.

Lemma in_dir_dropin_dir_root n k : in_dir (dropin_dir n) k = true → str_prefix unit_root k = true.
Proof.
  unfold in_dir. intros [H | H]%orb_true_iff.
  - apply bool_decide_eq_true in H as ->. rewrite (dropin_dir_root n). apply str_prefix_app_r.
  - apply str_prefix_spec in H as [r ->]. rewrite (dropin_dir_sep_root n), string_app_assoc.
    apply str_prefix_app_r.
Qed.

Lemma in_dir_dropin_path n y : in_dir (dropin_dir n) (dropin_path n y) = true.
Proof.
  unfold in_dir. apply orb_true_iff. right. unfold dropin_path.
  rewrite <- (string_app_assoc (dropin_dir n) "/" y). apply str_prefix_app_r.
Qed.

Lemma unit_file_steps_root m ou s k :
  s ∈ unit_file_steps m ou → touches k s = true → str_prefix unit_root k = true.
Proof.
  destruct ou as [old w]. intros Hs Ht.
  destruct (unit_file_steps_cases m old w s Hs)
    as [(c & _ & ->) | [(_ & ->) | [(y & _ & ->) | (dr & _ & ->)]]]; cbn [touches] in Ht.
  - apply bool_decide_eq_true in Ht as <-. apply root_prefix_unit_path.
  - by apply (in_dir_dropin_dir_root m).
  - apply bool_decide_eq_true in Ht as <-. apply root_prefix_dropin_path.
  - apply bool_decide_eq_true in Ht as <-. apply root_prefix_dropin_path.
Qed.

(** Outside [/etc/systemd/system/] a plan only writes changed files and
    deletes removed files. *)
Lemma plan_touch_root ms cs k s :
  s ∈ plan_steps (plan ms cs) → touches k s = true → str_prefix unit_root k = false →
  (∃ f, cs_files_changed cs !! k = Some f ∧ s = file_write_step ms k f) ∨
  (∃ f, cs_files_removed cs !! k = Some f ∧ s = DeleteFile k).
Proof.
  intros Hs Ht Hk.
  destruct (plan_touch ms cs k s Hs Ht)
    as [(p & f & Hp & ->) | [(p & f & Hp & ->) | [(m & ou & _ & Hm) | (m & v & _ & Hm)]]].
  - left. apply file_write_step_touches in Ht as ->. eauto.
  - right. cbn [touches] in Ht. apply bool_decide_eq_true in Ht as ->. eauto.
  - exfalso. rewrite (unit_file_steps_root m ou s k Hm Ht) in Hk. discriminate.
  - exfalso. destruct Hm as [-> | ->]; cbn [touches] in Ht.
    + apply bool_decide_eq_true in Ht as <-. rewrite root_prefix_unit_path in Hk. discriminate.
    + rewrite (in_dir_dropin_dir_root m k Ht) in Hk. discriminate.
Qed.

(** Every file a plan writes is a declared file, a unit file or a drop-in of
    the desired state. *)
Lemma plan_write_target ms d a k c m :
  WriteFile k c m ∈ plan_steps (reconcile ms d a) →
  (∃ f, ds_files d !! k = Some f) ∨
  (∃ n u, ds_units d !! n = Some u ∧ k = unit_path n) ∨
  (∃ n u dr, ds_units d !! n = Some u ∧ dr ∈ unit_dropins u ∧ k = dropin_path n (dropin_name dr)).
Proof.
  intros Hs. assert (Ht : touches k (WriteFile k c m) = true)
    by (cbn [touches]; by apply bool_decide_eq_true).
  destruct (plan_touch ms _ k _ Hs Ht)
    as [(p & f & Hp & Heq) | [(p & f & Hp & Heq) | [(n & [old u] & Hn & Hu) | (n & v & Hn & Heq)]]].
  - left. unfold file_write_step in Heq. destruct (resolve ms f); [| discriminate].
    injection Heq as -> _ _. exists f. by eapply changed_file_desired.
  - discriminate.
  - right. pose proof (changed_unit_desired ms d a n _ Hn) as Hd. simpl in Hd.
    destruct (unit_file_steps_cases n old u _ Hu)
      as [(c' & _ & Heq) | [(_ & Heq) | [(y & _ & Heq) | (dr & Hdr & Heq)]]]; try discriminate.
    + left. injection Heq as -> _ _. by exists n, u.
    + right. injection Heq as -> _ _. by exists n, u, dr.
  - destruct Heq; discriminate.
Qed.

(** Nothing a plan writes lies beneath the unit file of a well-formed unit
    name. *)
Lemma plan_no_write_under_unit_path ms d a n r c m :
  well_formed d → has_slash n = false → ends_with_dot_d n = false →
  WriteFile ((unit_path n +s+ "/") +s+ r) c m ∉ plan_steps (reconcile ms d a).
Proof.
  intros [Hfd Hud] Hns Hnd Hs.
  assert (Hk : (unit_path n +s+ "/") +s+ r = unit_root +s+ (n +s+ String "/" r)).
  { rewrite (unit_path_root n), !string_app_assoc. reflexivity. }
  rewrite Hk in Hs.
  destruct (plan_write_target ms d a _ c m Hs)
    as [(f & Hf) | [(m' & u & Hu & Heq) | (m' & u & dr & Hu & _ & Heq)]].
  - assert (Hr : str_prefix unit_root (unit_root +s+ (n +s+ String "/" r)) = false)
      by exact (Hfd _ f Hf).
    rewrite str_prefix_app_r in Hr. discriminate.
  - destruct (Hud m' u Hu) as (Hms & _ & _). rewrite (unit_path_root m') in Heq.
    apply root_app_inj in Heq. rewrite <- Heq, has_slash_sep in Hms. discriminate.
  - destruct (Hud m' u Hu) as (Hms & _ & _). rewrite (dropin_path_root m' _) in Heq.
    apply root_app_inj in Heq.
    apply slash_split in Heq as [Heq _]; [| exact Hns | by rewrite has_slash_dot_d].
    rewrite Heq, ends_with_dot_d_app in Hnd. discriminate.
Qed.

(** What a plan writes inside a drop-in directory is a drop-in of that unit
    in the desired state. *)
Lemma plan_write_in_dropin_dir ms d a n k c m :
  well_formed d → has_slash n = false → in_dir (dropin_dir n) k = true →
  WriteFile k c m ∈ plan_steps (reconcile ms d a) →
  ∃ u dr, ds_units d !! n = Some u ∧ dr ∈ unit_dropins u ∧ k = dropin_path n (dropin_name dr).
Proof.
  intros [Hfd Hud] Hns Hk Hs.
  destruct (plan_write_target ms d a k c m Hs)
    as [(f & Hf) | [(m' & u & Hu & ->) | (m' & u & dr & Hu & Hdr & ->)]].
  - exfalso. assert (Hr : str_prefix unit_root k = false) by exact (Hfd k f Hf).
    rewrite (in_dir_dropin_dir_root n k Hk) in Hr. discriminate.
  - exfalso. destruct (Hud m' u Hu) as (Hms & Hmd & _).
    rewrite (unit_path_not_in_dropin_dir n m' Hms Hmd) in Hk. discriminate.
  - destruct (Hud m' u Hu) as (Hms & _ & _).
    apply (dropin_path_in_dropin_dir n m' _ Hns Hms) in Hk as <-. eauto.
Qed.

Lemma unit_file_steps_no_dropins n old u :
  unit_dropins u = [] → DeleteDir (dropin_dir n) ∈ unit_file_steps n (old, u).
Proof. intros Hu. unfold unit_file_steps. rewrite Hu. apply elem_of_app. right. by left. Qed.

Lemma unit_file_steps_stale n old u y :
  unit_dropins u ≠ [] → y ∈ stale_dropins old u → DeleteFile (dropin_path n y) ∈ unit_file_steps n (old, u).
Proof.
  intros Hne Hy. unfold unit_file_steps. apply elem_of_app. right.
  destruct (unit_dropins u) as [|d0 ds] eqn:E; [done |].
  apply elem_of_app. left. apply list_elem_of_In, in_map_iff. exists y. split; [done |].
  by apply list_elem_of_In.
Qed.

Lemma plan_file_delete ms cs p g :
  cs_files_removed cs !! p = Some g → DeleteFile p ∈ plan_steps (plan ms cs).
Proof.
  intros Hg. simpl. unfold file_phase. rewrite !elem_of_app, !elem_of_for_each.
  left. right; left. exists p, g. split; [done | by left].
Qed.

(** ** Prefixes of paths *)

Lemma str_prefix_common a b r1 r2 :
  a +s+ r1 = b +s+ r2 → str_prefix a b = true ∨ str_prefix b a = true.
Proof.
  revert b. induction a as [|x a IH]; intros [|y b] H; [by left | by left | by right |].
  rewrite !string_app_cons in H. injection H as -> H. simpl.
  rewrite bool_decide_eq_true_2 by done. exact (IH b H).
Qed.

Lemma str_prefix_sep x p : str_prefix x (p +s+ "/") = true → str_prefix x p = true ∨ x = p +s+ "/".
Proof.
  revert x. induction p as [|c p IH]; intros [|y x] H.
  - by left.
  - right. simpl in H. destruct x; [| by rewrite andb_false_r in H].
    apply andb_true_iff in H as [H _]. apply bool_decide_eq_true in H as ->. reflexivity.
  - by left.
  - rewrite string_app_cons in H. simpl in H. apply andb_true_iff in H as [Hy H].
    apply bool_decide_eq_true in Hy as ->. destruct (IH x H) as [H' | ->].
    + left. simpl. by rewrite bool_decide_eq_true_2.
    + right. reflexivity.
Qed.

(** A path beneath both [/etc/systemd/system/] and [p/]: then [p] lies
    beneath the former or is one of its ancestors. *)
Lemma root_under_dir p k :
  str_prefix unit_root k = true → str_prefix (p +s+ "/") k = true →
  str_prefix (p +s+ "/") unit_root = true ∨ str_prefix unit_root p = true.
Proof.
  intros [r1 ->]%str_prefix_spec [r2 H]%str_prefix_spec.
  destruct (str_prefix_common _ _ _ _ H) as [H' | H']; [| by left].
  destruct (str_prefix_sep _ _ H') as [H'' | Heq]; [by right |].
  left. rewrite <- Heq. reflexivity.
Qed.

(** ** Cancellation flag *)

Lemma plan_cancel_spec ms d a :
  plan_cancel (reconcile ms d a) = true ↔
  ∃ u, ds_units d !! gna_unit_name = Some u ∧ ds_units a !! gna_unit_name ≠ Some u.
Proof.
  change (plan_cancel (reconcile ms d a)) with (should_cancel (diff ms d a)).
  unfold should_cancel. rewrite bool_decide_eq_true, diff_units_changed_lookup. split.
  - intros [ou Hou].
    destruct (ds_units a !! gna_unit_name) as [v|], (ds_units d !! gna_unit_name) as [u|];
      simpl in Hou; try discriminate.
    + case_bool_decide; [discriminate |]. exists u. split; congruence.
    + exists u. split; congruence.
  - intros (u & Hd & Ha). rewrite Hd.
    destruct (ds_units a !! gna_unit_name) as [v|]; simpl; [| eauto].
    case_bool_decide; [congruence | eauto].
Qed.

(** ** Empty plans *)

Lemma for_each_nil {A} (m : gmap string A) f :
  (∀ k v, f k v ≠ []) → for_each m f = [] → m = ∅.
Proof.
  intros Hf Hm. apply map_empty. intros k. destruct (m !! k) as [v|] eqn:E; [| done].
  exfalso. destruct (f k v) as [|s l] eqn:Ef; [by apply (Hf k v) |].
  assert (Hin : s ∈ for_each m f).
  { apply elem_of_for_each. exists k, v. split; [done |]. rewrite Ef. by left. }
  rewrite Hm in Hin. by apply elem_of_nil in Hin.
Qed.

(** ** Self-restart gate *)

(** C1 (amended).  The cancellation flag is raised exactly when the node
    agent's own unit ([gardener-node-agent.service]) is Added or Modified, so
    it is false whenever that unit is unchanged.  When it is Added or
    Modified, the plan installs its files (its content at its unit path and
    each of its drop-ins, mode 0600), enables it exactly once, and never
    disables, starts, stops or restarts it.  The plan contains at most one
    manager reload, and exactly one when the unit is new or its content or
    drop-ins changed.  A change of only its enable flag or command produces
    no reload on its account: the plan then has a reload exactly when some
    other unit is added, removed, or changes content or drop-ins. *)
Theorem self_restart_gate (ms : Mounts) (d a : DesiredState) :
  (plan_cancel (reconcile ms d a) = true ↔
     ∃ u, ds_units d !! gna_unit_name = Some u ∧ ds_units a !! gna_unit_name ≠ Some u) ∧
  ∀ u, ds_units d !! gna_unit_name = Some u → ds_units a !! gna_unit_name ≠ Some u →
    let ss := plan_steps (reconcile ms d a) in
    (∀ c, unit_content u = Some c →
       WriteFile (unit_path gna_unit_name) c default_file_permissions ∈ ss) ∧
    (∀ dr, dr ∈ unit_dropins u →
       WriteFile (dropin_path gna_unit_name (dropin_name dr)) (dropin_content dr)
         default_file_permissions ∈ ss) ∧
    occurrences ss (EnableUnit gna_unit_name) = 1 ∧
    occurrences ss (DisableUnit gna_unit_name) = 0 ∧
    occurrences ss (StartUnit gna_unit_name) = 0 ∧
    occurrences ss (StopUnit gna_unit_name) = 0 ∧
    occurrences ss (RestartUnit gna_unit_name) = 0 ∧
    occurrences ss DaemonReload ≤ 1 ∧
    ((ds_units a !! gna_unit_name = None ∨
      ∃ v, ds_units a !! gna_unit_name = Some v ∧
           (unit_content u ≠ unit_content v ∨ unit_dropins u ≠ unit_dropins v)) →
     occurrences ss DaemonReload = 1) ∧
    (∀ v, ds_units a !! gna_unit_name = Some v →
       unit_content u = unit_content v → unit_dropins u = unit_dropins v →
       (occurrences ss DaemonReload = 1 ↔
        ∃ n, n ≠ gna_unit_name ∧
          ((is_Some (ds_units d !! n) ∧ ds_units a !! n = None)
           ∨ (is_Some (ds_units a !! n) ∧ ds_units d !! n = None)
           ∨ (∃ u' v', ds_units d !! n = Some u' ∧ ds_units a !! n = Some v'
                       ∧ (unit_content u' ≠ unit_content v'
                          ∨ unit_dropins u' ≠ unit_dropins v'))))).
Proof.
  split.
  - change (plan_cancel (reconcile ms d a)) with (should_cancel (diff ms d a)).
    unfold should_cancel. rewrite bool_decide_eq_true, diff_units_changed_lookup. split.
    + intros [ou Hou].
      destruct (ds_units a !! gna_unit_name) as [v|], (ds_units d !! gna_unit_name) as [u|];
        simpl in Hou; try discriminate.
      * case_bool_decide; [discriminate |]. exists u. split; congruence.
      * exists u. split; congruence.
    + intros (u & Hd & Ha). rewrite Hd.
      destruct (ds_units a !! gna_unit_name) as [v|]; simpl; [| eauto].
      case_bool_decide; [congruence | eauto].
  - intros u Hd Ha ss. unfold ss, reconcile.
    pose proof (changed_unit_lookup ms d a _ u Hd Ha) as Hc.
    pose proof (present_not_removed ms d a _ u Hd) as Hr.
    split.
    { intros c Hcu. eapply plan_unit_file_step; [exact Hc |].
      by apply unit_file_steps_content. }
    split.
    { intros dr Hdr. eapply plan_unit_file_step; [exact Hc |].
      by apply unit_file_steps_dropin. }
    rewrite occurrences_enable, occurrences_disable, occurrences_start,
      occurrences_stop, occurrences_restart, occurrences_reload, Hc, Hr.
    assert (He : enable_step gna_unit_name u = EnableUnit gna_unit_name).
    { unfold enable_step. repeat case_match; done. }
    assert (Hcmd : command_steps gna_unit_name (ds_units a !! gna_unit_name, u) = []).
    { unfold command_steps. by rewrite bool_decide_eq_true_2. }
    cbn [snd]. rewrite He, Hcmd, occurrences_singleton_eq.
    do 5 (split; [done |]).
    split; [destruct (reload_needed _); lia |].
    split.
    + intros Hch. assert (reload_needed (diff ms d a) = true) as ->; [| done].
      apply reload_needed_diff. exists gna_unit_name.
      destruct Hch as [Hn | (v & Hv & Hcv)]; [left | right; right]; eauto 10.
    + intros v Hv Hcv Hdv.
      transitivity (reload_needed (diff ms d a) = true).
      { destruct (reload_needed _); split; intros; done || lia. }
      rewrite reload_needed_diff. split.
      * intros [n Hn]. exists n. split; [| done]. intros ->.
        destruct Hn as [[_ Hn] | [[_ Hn] | (u' & v' & Hu' & Hv' & Hch)]]; [congruence | congruence |].
        rewrite Hd in Hu'. rewrite Hv in Hv'. simplify_eq. tauto.
      * intros (n & _ & Hn). by exists n.
Qed.

(** ** Convergence *)

(** C2.  After one cycle (plan, apply, commit), the committed baseline equals
    the desired state, so re-diffing yields the empty change set, the next
    plan has no step at all, and the next cycle leaves the filesystem and the
    baseline as they are and raises no cancellation. *)
Theorem cycle_then_converged (ms : Mounts) (fs : FS) (desired applied : DesiredState) :
  match cycle ms fs desired applied with
  | (fs', applied', _) =>
      diff ms desired applied' = empty_changeset ∧
      plan_steps (reconcile ms desired applied') = [] ∧
      cycle ms fs' desired applied' = (fs', applied', false)
  end.
Proof.
  unfold cycle, commit. cbv beta iota zeta. unfold reconcile.
  rewrite !diff_self, plan_empty. done.
Qed.

(** ** Manager reload *)

(** C5.  A plan contains at most one manager reload, exactly one iff some
    unit was added, removed, or changed its content or drop-ins; when the
    same units exist on both sides with the same content and drop-ins
    (changes of enable, command or embedded files only), it contains none. *)
Theorem reload_exactly_when_needed (ms : Mounts) (d a : DesiredState) :
  let k := occurrences (plan_steps (reconcile ms d a)) DaemonReload in
  k ≤ 1 ∧
  (k = 1 ↔
   ∃ n, (is_Some (ds_units d !! n) ∧ ds_units a !! n = None)
      ∨ (is_Some (ds_units a !! n) ∧ ds_units d !! n = None)
      ∨ (∃ u v, ds_units d !! n = Some u ∧ ds_units a !! n = Some v
                ∧ (unit_content u ≠ unit_content v ∨ unit_dropins u ≠ unit_dropins v))) ∧
  ((∀ n, is_Some (ds_units d !! n) ↔ is_Some (ds_units a !! n)) →
   (∀ n u v, ds_units d !! n = Some u → ds_units a !! n = Some v →
             unit_content u = unit_content v ∧ unit_dropins u = unit_dropins v) →
   k = 0).
Proof.
  intros k. unfold k, reconcile. rewrite occurrences_reload.
  split; [destruct (reload_needed _); lia |]. split.
  - rewrite <- (reload_needed_diff ms d a). destruct (reload_needed _); split; done.
  - intros Hdom Heq. destruct (reload_needed _) eqn:Hr; [| done].
    apply reload_needed_diff in Hr as [n [[Hs Hn] | [[Hs Hn] | (u & v & Hd & Ha & Hc)]]].
    + apply Hdom in Hs. rewrite Hn in Hs. by destruct Hs.
    + apply Hdom in Hs. rewrite Hn in Hs. by destruct Hs.
    + destruct (Heq n u v Hd Ha). destruct Hc; congruence.
Qed.

(** ** Command phase *)

(** C3 (amended).  The plan never emits [start].  Every Added or Modified
    unit other than the node agent's own gets exactly one command step: stop
    when it declares [enable: false] or [command: stop], restart otherwise,
    also when it is newly added or declares no command.  A unit that is the
    same in the desired and the applied state gets neither stop nor restart. *)
Theorem command_phase_steps (ms : Mounts) (d a : DesiredState) :
  let ss := plan_steps (reconcile ms d a) in
  (∀ m, occurrences ss (StartUnit m) = 0) ∧
  (∀ n u, ds_units d !! n = Some u → ds_units a !! n ≠ Some u → n ≠ gna_unit_name →
     ((unit_enable u = Some false ∨ unit_command u = Some CommandStop) →
        occurrences ss (StopUnit n) = 1 ∧ occurrences ss (RestartUnit n) = 0) ∧
     (unit_enable u ≠ Some false → unit_command u ≠ Some CommandStop →
        occurrences ss (RestartUnit n) = 1 ∧ occurrences ss (StopUnit n) = 0)) ∧
  (∀ n, ds_units d !! n = ds_units a !! n →
     occurrences ss (StopUnit n) = 0 ∧ occurrences ss (RestartUnit n) = 0).
Proof.
  intros ss. unfold ss, reconcile. split; [intros m; apply occurrences_start |]. split.
  - intros n u Hd Ha Hn.
    rewrite occurrences_stop, occurrences_restart,
      (changed_unit_lookup ms d a n u Hd Ha), (present_not_removed ms d a n u Hd).
    unfold command_steps. rewrite bool_decide_eq_false_2 by done. cbn [snd].
    unfold must_stop. split.
    + intros Hs. assert (Hm : bool_decide (unit_enable u = Some false)
                             || bool_decide (unit_command u = Some CommandStop) = true).
      { apply orb_true_iff. destruct Hs; [left | right]; by apply bool_decide_eq_true. }
      rewrite Hm, occurrences_singleton_eq. split; [done |].
      rewrite occurrences_not_elem; [lia | set_solver].
    + intros He Hc. rewrite !bool_decide_eq_false_2 by done. simpl orb.
      rewrite occurrences_singleton_eq. split; [done |].
      rewrite occurrences_not_elem; [lia | set_solver].
  - intros n Heq.
    rewrite occurrences_stop, occurrences_restart,
      (unchanged_unit_lookup ms d a n Heq), (unchanged_not_removed ms d a n Heq).
    done.
Qed.

(** ** Enablement phase *)

(** C4 (amended).  Every Added or Modified unit gets exactly one
    enablement step, whether or not its enable value changed: disable when
    it declares [enable: false] and is not the node agent's own unit, enable
    otherwise (also when it declares no enable).  A unit that is the same on
    both sides gets none; a Removed unit is disabled once. *)
Theorem enablement_phase_steps (ms : Mounts) (d a : DesiredState) :
  let ss := plan_steps (reconcile ms d a) in
  (∀ n u, ds_units d !! n = Some u → ds_units a !! n ≠ Some u →
     (unit_enable u = Some false → n ≠ gna_unit_name →
        occurrences ss (DisableUnit n) = 1 ∧ occurrences ss (EnableUnit n) = 0) ∧
     (unit_enable u ≠ Some false ∨ n = gna_unit_name →
        occurrences ss (EnableUnit n) = 1 ∧ occurrences ss (DisableUnit n) = 0)) ∧
  (∀ n, ds_units d !! n = ds_units a !! n →
     occurrences ss (EnableUnit n) = 0 ∧ occurrences ss (DisableUnit n) = 0) ∧
  (∀ n v, ds_units a !! n = Some v → ds_units d !! n = None →
     occurrences ss (DisableUnit n) = 1 ∧ occurrences ss (EnableUnit n) = 0).
Proof.
  intros ss. unfold ss, reconcile. split; [| split].
  - intros n u Hd Ha.
    rewrite occurrences_enable, occurrences_disable,
      (changed_unit_lookup ms d a n u Hd Ha), (present_not_removed ms d a n u Hd).
    cbn [snd]. unfold enable_step. split.
    + intros He Hn. rewrite He, bool_decide_eq_false_2 by done.
      rewrite occurrences_singleton_eq. split; [done |].
      apply occurrences_not_elem. set_solver.
    + intros Hor.
      assert (Hs : match unit_enable u with
                   | Some false => if bool_decide (n = gna_unit_name) then EnableUnit n
                                   else DisableUnit n
                   | _ => EnableUnit n
                   end = EnableUnit n).
      { destruct Hor as [He | ->].
        - destruct (unit_enable u) as [[]|]; congruence.
        - rewrite bool_decide_eq_true_2 by done. by repeat case_match. }
      rewrite Hs, occurrences_singleton_eq. split; [done |].
      rewrite (occurrences_not_elem [EnableUnit n]); [done | set_solver].
  - intros n Heq.
    rewrite occurrences_enable, occurrences_disable,
      (unchanged_unit_lookup ms d a n Heq), (unchanged_not_removed ms d a n Heq).
    done.
  - intros n v Ha Hd. destruct (removed_unit_lookup ms d a n v Ha Hd) as [Hr Hc].
    rewrite occurrences_enable, occurrences_disable, Hr, Hc. done.
Qed.


Lemma self_restart_gate_witness :
  ds_units OSCControllerTest.desired3 !! gna_unit_name = Some OSCControllerTest.gnaUnit ∧
  ds_units OSCControllerTest.desired1 !! gna_unit_name ≠ Some OSCControllerTest.gnaUnit ∧
  occurrences (plan_steps (reconcile OSCControllerTest.mounts OSCControllerTest.desired3
                             OSCControllerTest.desired1)) DaemonReload = 1 ∧
  WriteFile (unit_path gna_unit_name) "#gna" default_file_permissions
    ∈ plan_steps (reconcile [] gna_flip_desired gna_flip_applied) ∧
  occurrences (plan_steps (reconcile [] gna_flip_desired gna_flip_applied)) DaemonReload ≠ 1.
Proof.
  assert (Hd : ds_units OSCControllerTest.desired3 !! gna_unit_name
               = Some OSCControllerTest.gnaUnit) by (vm_compute; reflexivity).
  assert (Ha : ds_units OSCControllerTest.desired1 !! gna_unit_name = None)
    by (vm_compute; reflexivity).
  assert (Ha' : ds_units OSCControllerTest.desired1 !! gna_unit_name
                ≠ Some OSCControllerTest.gnaUnit) by (rewrite Ha; discriminate).
  split; [exact Hd | split; [exact Ha' |]].
  split.
  { destruct (proj2 (self_restart_gate OSCControllerTest.mounts OSCControllerTest.desired3
                OSCControllerTest.desired1) _ Hd Ha')
      as (_ & _ & _ & _ & _ & _ & _ & _ & Hr & _).
    exact (Hr (or_introl Ha)). }
  assert (Fd : ds_units gna_flip_desired !! gna_unit_name = Some gna_disabled)
    by (vm_compute; reflexivity).
  assert (Fa : ds_units gna_flip_applied !! gna_unit_name = Some gna_enabled)
    by (vm_compute; reflexivity).
  assert (Fa' : ds_units gna_flip_applied !! gna_unit_name ≠ Some gna_disabled)
    by (rewrite Fa; discriminate).
  destruct (proj2 (self_restart_gate [] gna_flip_desired gna_flip_applied) _ Fd Fa')
    as (Hw & _ & _ & _ & _ & _ & _ & _ & _ & Hn).
  split; [apply Hw; reflexivity |].
  rewrite (Hn gna_enabled Fa eq_refl eq_refl).
  intros (n & Hne & Hch).
  assert (Hdn : ds_units gna_flip_desired !! n = None)
    by (apply lookup_singleton_ne; congruence).
  assert (Han : ds_units gna_flip_applied !! n = None)
    by (apply lookup_singleton_ne; congruence).
  rewrite Hdn, Han in Hch.
  destruct Hch as [[[? ?] _] | [[[? ?] _] | (? & ? & ? & _)]]; discriminate.
Defined.

(** C1 as stated fails: the own unit changes only its enable flag, the
    cancellation flag is raised, and the plan has no manager reload. *)
Lemma self_restart_enable_only_no_reload :
  ds_units gna_flip_desired !! gna_unit_name ≠ ds_units gna_flip_applied !! gna_unit_name ∧
  plan_cancel (reconcile [] gna_flip_desired gna_flip_applied) = true ∧
  occurrences (plan_steps (reconcile [] gna_flip_desired gna_flip_applied)) DaemonReload = 0.
Proof. split; [vm_compute; discriminate | split; vm_compute; reflexivity]. Qed.

Lemma command_phase_steps_witness :
  ds_units OSCControllerTest.desired2 !! "unit4" = Some OSCControllerTest.unit4' ∧
  ds_units OSCControllerTest.desired1 !! "unit4" ≠ Some OSCControllerTest.unit4' ∧
  occurrences (plan_steps (reconcile OSCControllerTest.mounts OSCControllerTest.desired2
                             OSCControllerTest.desired1)) (StopUnit "unit4") = 1 ∧
  ds_units OSCControllerTest.desired2 !! "unit3" = ds_units OSCControllerTest.desired1 !! "unit3" ∧
  occurrences (plan_steps (reconcile OSCControllerTest.mounts OSCControllerTest.desired2
                             OSCControllerTest.desired1)) (RestartUnit "unit3") = 0.
Proof.
  assert (Hd : ds_units OSCControllerTest.desired2 !! "unit4" = Some OSCControllerTest.unit4')
    by (vm_compute; reflexivity).
  assert (Ha : ds_units OSCControllerTest.desired1 !! "unit4" ≠ Some OSCControllerTest.unit4')
    by (vm_compute; discriminate).
  assert (Hn : "unit4" ≠ gna_unit_name) by discriminate.
  assert (He : unit_enable OSCControllerTest.unit4' = Some false) by reflexivity.
  assert (Hu : ds_units OSCControllerTest.desired2 !! "unit3"
               = ds_units OSCControllerTest.desired1 !! "unit3") by (vm_compute; reflexivity).
  destruct (command_phase_steps OSCControllerTest.mounts OSCControllerTest.desired2
              OSCControllerTest.desired1) as (_ & Hch & Hun).
  split; [exact Hd | split; [exact Ha | split; [| split; [exact Hu |]]]].
  - exact (proj1 (proj1 (Hch _ _ Hd Ha Hn) (or_introl He))).
  - exact (proj2 (Hun _ Hu)).
Defined.

(** C3 as stated fails: a new unit without command is restarted, and a new
    unit with [command: start] is restarted, not started. *)
Lemma command_phase_restarts_new_units :
  occurrences (plan_steps (reconcile [] new_units empty_state)) (RestartUnit "svc") = 1 ∧
  occurrences (plan_steps (reconcile [] new_units empty_state)) (StartUnit "new") = 0 ∧
  occurrences (plan_steps (reconcile [] new_units empty_state)) (RestartUnit "new") = 1.
Proof. split; [| split]; vm_compute; reflexivity. Qed.

Lemma enablement_phase_steps_witness :
  ds_units OSCControllerTest.desired2 !! "unit5" = Some OSCControllerTest.unit5' ∧
  ds_units OSCControllerTest.desired1 !! "unit5" ≠ Some OSCControllerTest.unit5' ∧
  occurrences (plan_steps (reconcile OSCControllerTest.mounts OSCControllerTest.desired2
                             OSCControllerTest.desired1)) (EnableUnit "unit5") = 1 ∧
  ds_units OSCControllerTest.desired1 !! "unit1" = Some OSCControllerTest.unit1 ∧
  ds_units OSCControllerTest.desired2 !! "unit1" = None ∧
  occurrences (plan_steps (reconcile OSCControllerTest.mounts OSCControllerTest.desired2
                             OSCControllerTest.desired1)) (DisableUnit "unit1") = 1.
Proof.
  assert (Hd : ds_units OSCControllerTest.desired2 !! "unit5" = Some OSCControllerTest.unit5')
    by (vm_compute; reflexivity).
  assert (Ha : ds_units OSCControllerTest.desired1 !! "unit5" ≠ Some OSCControllerTest.unit5')
    by (vm_compute; discriminate).
  assert (He : unit_enable OSCControllerTest.unit5' ≠ Some false) by discriminate.
  assert (Hr1 : ds_units OSCControllerTest.desired1 !! "unit1" = Some OSCControllerTest.unit1)
    by (vm_compute; reflexivity).
  assert (Hr2 : ds_units OSCControllerTest.desired2 !! "unit1" = None)
    by (vm_compute; reflexivity).
  destruct (enablement_phase_steps OSCControllerTest.mounts OSCControllerTest.desired2
              OSCControllerTest.desired1) as (Hch & _ & Hrm).
  split; [exact Hd | split; [exact Ha | split; [| split; [exact Hr1 | split; [exact Hr2 |]]]]].
  - exact (proj1 (proj2 (Hch _ _ Hd Ha) (or_introl He))).
  - exact (proj1 (Hrm _ _ Hr1 Hr2)).
Defined.

(** C4 as stated fails: [u] keeps [enable: true] and is enabled again, and
    [v], which declares no enable, is enabled. *)
Lemma enablement_reissued_for_unchanged_enable :
  unit_enable u_new = unit_enable u_old ∧
  occurrences (plan_steps (reconcile [] enable_desired enable_applied)) (EnableUnit "u") = 1 ∧
  unit_enable v_noenable = None ∧
  occurrences (plan_steps (reconcile [] enable_desired enable_applied)) (EnableUnit "v") = 1.
Proof. repeat split; vm_compute; reflexivity. Qed.

Lemma reload_exactly_when_needed_witness :
  occurrences (plan_steps (reconcile [] enable_only_desired enable_only_applied)) DaemonReload = 0.
Proof.
  assert (Hdom : ∀ n, is_Some (ds_units enable_only_desired !! n)
                      ↔ is_Some (ds_units enable_only_applied !! n)).
  { intros n. simpl. rewrite !lookup_singleton. case_decide; done. }
  assert (Heq : ∀ n u v, ds_units enable_only_desired !! n = Some u →
                ds_units enable_only_applied !! n = Some v →
                unit_content u = unit_content v ∧ unit_dropins u = unit_dropins v).
  { intros n u v. simpl. rewrite !lookup_singleton. case_decide; [| done].
    intros [= <-] [= <-]. split; reflexivity. }
  exact (proj2 (proj2 (reload_exactly_when_needed [] enable_only_desired enable_only_applied))
           Hdom Heq).
Defined.

(** ** Assembler claims *)

(** C6.  When the assembly succeeds, every unit name [n] that some owner or
    extension entry carries yields exactly one unit: it is stored under [n],
    carries the name [n], and its drop-ins are those of the owner entries
    named [n] followed by those of the extension entries named [n], each in
    list order; no other key holds a unit named [n]. *)
Theorem assemble_merges_dropins (of ef : list File) (ou eu : list Unit)
    (d : DesiredState) (n : string) :
  assemble of ou ef eu = inl d →
  (∃ u, u ∈ ou ++ eu ∧ unit_name u = n) →
  ∃ u, ds_units d !! n = Some u ∧ unit_name u = n ∧
       unit_dropins u = concat (map unit_dropins (units_named n ou))
                        ++ concat (map unit_dropins (units_named n eu)) ∧
       ∀ k v, ds_units d !! k = Some v → unit_name v = n → k = n.
Proof.
  intros Hd (u0 & Hu0 & Hn). apply assemble_inl in Hd. rewrite Hd.
  rewrite merge_units_lookup.
  destruct (units_named n (ou ++ eu)) as [|u r] eqn:E.
  { exfalso. apply list_elem_of_In in Hu0. by apply (units_named_nonempty n _ u0 Hu0 Hn). }
  exists (foldl merge_unit u r). split; [done | split; [| split]].
  - rewrite merge_fold_name. apply (units_named_name n (ou ++ eu)). rewrite E. by left.
  - rewrite merge_fold_dropins, <- concat_app, <- map_app, <- units_named_app, E. done.
  - intros k v Hk Hv. apply merge_units_key in Hk. congruence.
Qed.

(** C7 (amended).  A unit name whose entries are all fragments (no content
    and no enable) does not make the assembly fail: when the assembly
    succeeds such a name yields one unit without content or enable whose
    drop-ins are those of its entries in order.  The assembly fails exactly
    when two of the collected files share a path (error [AmbiguousFile]). *)
Theorem assemble_fragment_only_units (of ef : list File) (ou eu : list Unit) :
  (∀ d n, assemble of ou ef eu = inl d →
     (∃ u, u ∈ ou ++ eu ∧ unit_name u = n) →
     Forall (λ u, is_fragment u = true) (units_named n (ou ++ eu)) →
     ∃ u, ds_units d !! n = Some u ∧ unit_content u = None ∧ unit_enable u = None ∧
          unit_dropins u = concat (map unit_dropins (units_named n (ou ++ eu)))) ∧
  ((∃ e, assemble of ou ef eu = inr e) ↔ ¬ NoDup (map file_path (all_files of ou ef eu))).
Proof.
  split.
  - intros d n Hd (u0 & Hu0 & Hn) Hfr. apply assemble_inl in Hd. rewrite Hd.
    rewrite merge_units_lookup.
    destruct (units_named n (ou ++ eu)) as [|u r] eqn:E.
    { exfalso. apply list_elem_of_In in Hu0. by apply (units_named_nonempty n _ u0 Hu0 Hn). }
    inversion Hfr as [|? ? Hu Hr]; subst.
    pose proof (merge_fold_fragment u r Hu Hr) as Hf. apply is_fragment_spec in Hf as [Hc He].
    exists (foldl merge_unit u r). split; [done | split; [done | split; [done |]]].
    by rewrite merge_fold_dropins.
  - rewrite <- collect_files_error. unfold assemble, all_files.
    destruct (collect_files _) as [fs|e].
    + split; intros [e' He']; discriminate.
    + split; intros _; by eexists.
Qed.

(** ** Removal and file claims *)

(** C8.  A unit present in the applied state and absent from the desired
    state is stopped, and both its unit file and its drop-in directory under
    [/etc/systemd/system] are deleted. *)
Theorem removed_unit_cleanup (ms : Mounts) (d a : DesiredState) (n : string) (v : Unit) :
  ds_units a !! n = Some v → ds_units d !! n = None →
  let ss := plan_steps (reconcile ms d a) in
  StopUnit n ∈ ss ∧ DeleteFile (unit_path n) ∈ ss ∧ DeleteDir (dropin_dir n) ∈ ss.
Proof.
  intros Ha Hd. destruct (removed_unit_lookup ms d a n v Ha Hd) as [Hr _].
  exact (plan_removed_steps ms _ n v Hr).
Qed.

(** C9.  A desired file that is new or differs from its applied version and
    whose content resolves to [c] is written to its path with mode 0600
    (= 384) when it declares no permissions, and with exactly its declared
    mode otherwise. *)
Theorem file_default_mode (ms : Mounts) (d a : DesiredState) (p c : string) (f : File) :
  ds_files d !! p = Some f →
  (ds_files a !! p = None ∨ ∃ g, ds_files a !! p = Some g ∧ file_differs ms g f = true) →
  resolve ms f = Some c →
  let ss := plan_steps (reconcile ms d a) in
  (file_permissions f = None → WriteFile p c 384%Z ∈ ss) ∧
  (∀ m, file_permissions f = Some m → WriteFile p c m ∈ ss).
Proof.
  intros Hd Ha Hc.
  assert (Hch : cs_files_changed (diff ms d a) !! p = Some f).
  { rewrite diff_files_changed_lookup, Hd.
    destruct Ha as [-> | (g & -> & Hg)]; simpl; [done | by rewrite Hg]. }
  pose proof (plan_file_write ms _ p f Hch) as Hw. unfold file_write_step, file_mode in Hw.
  rewrite Hc in Hw. simpl. split.
  - intros Hp. rewrite Hp in Hw. exact Hw.
  - intros m Hp. rewrite Hp in Hw. exact Hw.
Qed.

Lemma assemble_merges_dropins_witness :
  assemble [] [owner_u] [] [ext_u] = inl merged_u ∧
  ∃ u, ds_units merged_u !! "u" = Some u ∧ unit_dropins u = [dropA; dropB].
Proof.
  assert (Ha : assemble [] [owner_u] [] [ext_u] = inl merged_u) by (vm_compute; reflexivity).
  assert (Hin : owner_u ∈ [owner_u] ++ [ext_u]) by (apply list_elem_of_In; simpl; left; reflexivity).
  split; [exact Ha |].
  destruct (assemble_merges_dropins [] [] [owner_u] [ext_u] merged_u "u" Ha
              (ex_intro _ owner_u (conj Hin eq_refl))) as (u & Hu & _ & Hdr & _).
  exists u. split; [exact Hu |]. rewrite Hdr. vm_compute. reflexivity.
Defined.

(** C7 as stated fails: a name with only a fragment entry and no base
    definition is assembled into a standalone unit, no error is raised. *)
Lemma orphan_dropin_assembles :
  assemble [] [] [] [frag_x] = inl orphan_x ∧ ds_units orphan_x !! "x" = Some frag_x.
Proof. split; vm_compute; reflexivity. Qed.

Lemma assemble_fragment_only_units_witness :
  ∃ u, ds_units orphan_x !! "x" = Some u ∧ unit_content u = None ∧ unit_enable u = None ∧
       unit_dropins u = [dropA].
Proof.
  assert (Ha : assemble [] [] [] [frag_x] = inl orphan_x) by (vm_compute; reflexivity).
  assert (Hin : frag_x ∈ [] ++ [frag_x]) by (apply list_elem_of_In; simpl; left; reflexivity).
  assert (Hfr : Forall (λ u, is_fragment u = true) (units_named "x" ([] ++ [frag_x])))
    by (vm_compute; repeat constructor).
  destruct (proj1 (assemble_fragment_only_units [] [] [] [frag_x]) orphan_x "x" Ha
              (ex_intro _ frag_x (conj Hin eq_refl)) Hfr) as (u & Hu & Hc & He & Hdr).
  exists u. split; [exact Hu | split; [exact Hc | split; [exact He |]]].
  rewrite Hdr. vm_compute. reflexivity.
Defined.

Lemma removed_unit_cleanup_witness :
  let ss := plan_steps (reconcile OSCControllerTest.mounts OSCControllerTest.desired2
                          OSCControllerTest.desired1) in
  StopUnit "unit1" ∈ ss ∧ DeleteFile (unit_path "unit1") ∈ ss ∧
  DeleteDir (dropin_dir "unit1") ∈ ss.
Proof.
  assert (Ha : ds_units OSCControllerTest.desired1 !! "unit1" = Some OSCControllerTest.unit1)
    by (vm_compute; reflexivity).
  assert (Hd : ds_units OSCControllerTest.desired2 !! "unit1" = None)
    by (vm_compute; reflexivity).
  exact (removed_unit_cleanup OSCControllerTest.mounts OSCControllerTest.desired2
           OSCControllerTest.desired1 "unit1" OSCControllerTest.unit1 Ha Hd).
Defined.

Lemma file_default_mode_witness :
  let ss := plan_steps (reconcile OSCControllerTest.mounts OSCControllerTest.desired1
                          empty_state) in
  WriteFile "/another/file" "file2" 384%Z ∈ ss.
Proof.
  assert (Hd : ds_files OSCControllerTest.desired1 !! "/another/file"
               = Some OSCControllerTest.file2) by (vm_compute; reflexivity).
  assert (Ha : ds_files empty_state !! "/another/file" = None) by (vm_compute; reflexivity).
  assert (Hc : resolve OSCControllerTest.mounts OSCControllerTest.file2 = Some "file2")
    by (vm_compute; reflexivity).
  assert (Hp : file_permissions OSCControllerTest.file2 = None) by reflexivity.
  exact (proj1 (file_default_mode OSCControllerTest.mounts OSCControllerTest.desired1
                  empty_state "/another/file" "file2" OSCControllerTest.file2
                  Hd (or_introl Ha) Hc) Hp).
Defined.

(** ** Unit-file layout claim *)




(** ** The controller test replayed on the model *)

Module OSCControllerTestChecks.
Import OSCControllerTest.

Lemma actions_perm_by_decide (l1 l2 : list SystemdAction) :
  bool_decide (l1 ≡ₚ l2) = true → l1 ≡ₚ l2.
Proof. apply bool_decide_eq_true_1. Qed.

Lemma scenario_first_assembles : is_Some (match osc1 with inl d => Some d | inr _ => None end).
Proof. vm_compute. eauto. Qed.

Lemma scenario_first_actions :
  dbus_actions (plan_steps plan1) ≡ₚ
    [ActionEnable "unit1"; ActionDisable "unit2"; ActionEnable "unit3";
     ActionEnable "unit4"; ActionEnable "unit5"; ActionEnable "unit6";
     ActionEnable "unit7"; ActionDaemonReload; ActionRestart "unit1";
     ActionStop "unit2"; ActionRestart "unit3"; ActionRestart "unit4";
     ActionRestart "unit5"; ActionRestart "unit6"; ActionRestart "unit7"]
  ∧ plan_cancel plan1 = false.
Proof. split; [apply actions_perm_by_decide |]; vm_compute; reflexivity. Qed.

Lemma scenario_first_files :
  fs1 !! "/example/file" = Some ("file1", 511%Z) ∧
  fs1 !! "/another/file" = Some ("file2", 384%Z) ∧
  fs1 !! "/third/file" = Some ("file3", 488%Z) ∧
  fs1 !! "/unchanged/file" = Some ("file4", 488%Z) ∧
  fs1 !! "/changed/file" = Some ("file5", 488%Z) ∧
  fs1 !! unit_path "unit1" = Some ("#unit1", 384%Z) ∧
  fs1 !! dropin_path "unit1" "drop" = Some ("#unit1drop", 384%Z) ∧
  fs1 !! unit_path "unit2" = Some ("#unit2", 384%Z) ∧
  fs1 !! dropin_path "unit3" "drop" = Some ("#unit3drop", 384%Z) ∧
  fs1 !! unit_path "unit4" = Some ("#unit4", 384%Z) ∧
  fs1 !! dropin_path "unit4" "drop" = Some ("#unit4drop", 384%Z) ∧
  fs1 !! unit_path "unit5" = Some ("#unit5", 384%Z) ∧
  fs1 !! dropin_path "unit5" "drop1" = Some ("#unit5drop1", 384%Z) ∧
  fs1 !! dropin_path "unit5" "drop2" = Some ("#unit5drop2", 384%Z) ∧
  fs1 !! dropin_path "unit5" "extensionsdrop" = Some ("#unit5extensionsdrop", 384%Z) ∧
  fs1 !! unit_path "unit6" = Some ("#unit6", 384%Z) ∧
  fs1 !! unit_path "unit7" = Some ("#unit7", 384%Z).
Proof. vm_compute. repeat split. Qed.

Lemma scenario_update_actions :
  dbus_actions (plan_steps plan2) ≡ₚ
    [ActionEnable "unit2"; ActionEnable "unit5"; ActionEnable "unit6";
     ActionEnable "unit7"; ActionDisable "unit4"; ActionDisable "unit1";
     ActionStop "unit1"; ActionDaemonReload; ActionRestart "unit2";
     ActionRestart "unit5"; ActionStop "unit4"; ActionRestart "unit6";
     ActionRestart "unit7"]
  ∧ plan_cancel plan2 = false.
Proof. split; [apply actions_perm_by_decide |]; vm_compute; reflexivity. Qed.

Lemma scenario_update_files :
  fs2 !! "/example/file" = Some ("file1", 511%Z) ∧
  fs2 !! "/another/file" = None ∧
  fs2 !! "/third/file" = Some ("file3", 488%Z) ∧
  fs2 !! "/unchanged/file" = Some ("file4", 488%Z) ∧
  fs2 !! "/changed/file" = Some ("changeme", 488%Z) ∧
  fs2 !! unit_path "unit1" = None ∧
  ¬ dir_exists fs2 (dropin_dir "unit1") ∧
  fs2 !! unit_path "unit2" = Some ("#unit2", 384%Z) ∧
  fs2 !! dropin_path "unit2" "dropdropdrop" = Some ("#unit2drop", 384%Z) ∧
  fs2 !! dropin_path "unit3" "drop" = Some ("#unit3drop", 384%Z) ∧
  fs2 !! unit_path "unit4" = Some ("#unit4", 384%Z) ∧
  ¬ dir_exists fs2 (dropin_dir "unit4") ∧
  fs2 !! unit_path "unit5" = Some ("#unit5", 384%Z) ∧
  fs2 !! dropin_path "unit5" "drop2" = Some ("#unit5drop2", 384%Z) ∧
  fs2 !! unit_path "unit7" = Some ("#unit7", 384%Z).
Proof.
  assert (Hnd : ∀ d, (∀ k, k ∈ map fst (map_to_list fs2) → str_prefix (d +s+ "/") k = false) →
                      ¬ dir_exists fs2 d).
  { intros d Hk (k & v & Hl & Hp).
    assert (E : str_prefix (d +s+ "/") k = false).
    { apply Hk. apply list_elem_of_fmap. exists (k, v). split; [done |].
      by apply elem_of_map_to_list. }
    congruence. }
  assert (Hall : ∀ d, Forall (λ k, str_prefix (d +s+ "/") k = false) (map fst (map_to_list fs2)) →
                      ¬ dir_exists fs2 d).
  { intros d Hf. apply Hnd. intros k Hk. by eapply Forall_forall in Hf; [| exact Hk]. }
  repeat split; try (apply Hall; vm_compute; repeat constructor); vm_compute; reflexivity.
Qed.

Lemma scenario_self_restart :
  dbus_actions (plan_steps plan3) ≡ₚ [ActionEnable gna_unit_name; ActionDaemonReload]
  ∧ fs3 !! unit_path gna_unit_name = Some ("#gna", 384%Z)
  ∧ plan_cancel plan3 = true.
Proof. split; [apply actions_perm_by_decide |]; vm_compute; repeat split. Qed.

End OSCControllerTestChecks.

(** * Further properties of the reconciler as the test observes it *)

(** ** The cancel-function ensurer *)

(** X1.  Driving the reconciler with the test's [cancelFuncEnsurer] over a
    sequence of desired states: [called] ends up true exactly when it was
    true before or some cycle brought a node-agent unit that differs from the
    one of the previous baseline (the initial applied state for the first
    cycle, the previous desired state afterwards). *)
Theorem run_cycles_called (ms : Mounts) (fs : FS) (a : DesiredState)
    (c : cancelFuncEnsurer) (ds : list DesiredState) :
  match run_cycles ms (fs, a, c) ds with
  | (_, _, c') =>
      called c' = true ↔
      called c = true ∨
      ∃ i prev d u, (a :: ds) !! i = Some prev ∧ ds !! i = Some d ∧
        ds_units d !! gna_unit_name = Some u ∧ ds_units prev !! gna_unit_name ≠ Some u
  end.
Proof.
  revert fs a c. induction ds as [|d ds IH]; intros fs a c.
  - unfold run_cycles. simpl. split; [by left |].
    intros [H | (i & prev & d & u & _ & Hd & _)]; [done | by rewrite lookup_nil in Hd].
  - change (run_cycles ms (fs, a, c) (d :: ds))
      with (run_cycles ms (cycle_with_cancel ms (fs, a, c) d) ds).
    assert (Hc : cycle_with_cancel ms (fs, a, c) d =
                 (exec_plan fs (plan_steps (reconcile ms d a)), d,
                  if plan_cancel (reconcile ms d a) then cancel c else c)) by reflexivity.
    rewrite Hc. specialize (IH (exec_plan fs (plan_steps (reconcile ms d a))) d
                              (if plan_cancel (reconcile ms d a) then cancel c else c)).
    destruct (run_cycles ms _ ds) as [[fs' a'] c']. rewrite IH.
    assert (Hflag : called (if plan_cancel (reconcile ms d a) then cancel c else c) = true ↔
                    called c = true ∨ ∃ u, ds_units d !! gna_unit_name = Some u ∧
                                          ds_units a !! gna_unit_name ≠ Some u).
    { rewrite <- (plan_cancel_spec ms d a).
      destruct (plan_cancel (reconcile ms d a)); cbn [called cancel]; split.
      - intros _. by right.
      - by intros _.
      - intros H. by left.
      - intros [H | H]; [exact H | discriminate]. }
    rewrite Hflag. split.
    + intros [[H | (u & Hu & Hne)] | (i & prev & d' & u & Hp & Hd' & Hu & Hne)].
      * by left.
      * right. exists 0, a, d, u. done.
      * right. exists (S i), prev, d', u. done.
    + intros [H | ([|i] & prev & d' & u & Hp & Hd' & Hu & Hne)].
      * by left; left.
      * simpl in Hp, Hd'. injection Hp as <-. injection Hd' as <-. left; right. eauto.
      * right. exists i, prev, d', u. done.
Qed.

(** ** Removal seen through [assertNoFileOnDisk] and [assertNoDirectoryOnDisk] *)

(** X2.  After a cycle in which a unit was removed (present in the applied
    state, absent from the desired one), both well formed, [assertNoFileOnDisk]
    passes for its unit file and [assertNoDirectoryOnDisk] for its drop-in
    directory, provided no directory stood at the unit file's path before. *)
Theorem cycle_removed_unit_gone (ms : Mounts) (fs : FS) (d a : DesiredState) (n : string)
    (v : Unit) :
  well_formed a → well_formed d →
  ds_units a !! n = Some v → ds_units d !! n = None →
  assertNoDirectoryOnDisk fs (unit_path n) = true →
  match cycle ms fs d a with
  | (fs', _, _) => assertNoFileOnDisk fs' (unit_path n) = true ∧
                   assertNoDirectoryOnDisk fs' (dropin_dir n) = true
  end.
Proof.
  intros Hwa Hwd Ha Hd Hdir. destruct (proj2 Hwa n v Ha) as (Hns & Hnd & _).
  apply assertNoDirectoryOnDisk_spec in Hdir.
  unfold cycle. cbv beta iota zeta.
  destruct (removed_unit_lookup ms d a n v Ha Hd) as [Hr _].
  destruct (plan_removed_steps ms _ n v Hr) as (_ & Hdf & Hdd).
  rewrite assertNoFileOnDisk_spec, !assertNoDirectoryOnDisk_spec. split; [split |].
  - apply exec_plan_absent; [| by right; left].
    intros s c m Hs ->.
    destruct (plan_write_target ms d a _ c m Hs)
      as [(f & Hf) | [(m' & u & Hu & Heq) | (m' & u & dr & Hu & _ & Heq)]].
    + assert (Hroot : str_prefix unit_root (unit_path n) = false) by exact (proj1 Hwd _ f Hf).
      rewrite root_prefix_unit_path in Hroot. discriminate.
    + apply unit_path_inj in Heq as <-. congruence.
    + exact (dropin_path_ne_unit_path m' n _ Hns (eq_sym Heq)).
  - intros (k & w & Hk & Hp). apply str_prefix_spec in Hp as [r ->].
    enough (Hn : exec_plan fs (plan_steps (reconcile ms d a)) !! ((unit_path n +s+ "/") +s+ r)
                 = None) by congruence.
    apply exec_plan_absent.
    + intros s c m Hs ->. by apply (plan_no_write_under_unit_path ms d a n r c m).
    + left. destruct (fs !! _) as [x|] eqn:E; [| done]. exfalso. apply Hdir.
      exists ((unit_path n +s+ "/") +s+ r), x. split; [exact E | apply str_prefix_app_r].
  - intros (k & w & Hk & Hp).
    assert (Hin : in_dir (dropin_dir n) k = true) by (unfold in_dir; rewrite Hp; apply orb_true_r).
    enough (Hn : exec_plan fs (plan_steps (reconcile ms d a)) !! k = None) by congruence.
    apply exec_plan_absent.
    + intros s c m Hs ->.
      destruct (plan_write_in_dropin_dir ms d a n k c m Hwd Hns Hin Hs) as (u & _ & Hu & _).
      congruence.
    + right; right. by exists (dropin_dir n).
Qed.

(** X3.  After a cycle, a unit of the well-formed desired state that
    declares no drop-ins has no drop-in directory ([assertNoDirectoryOnDisk]
    passes), provided the unit was Added or Modified in that cycle or had no
    drop-in directory before. *)
Theorem cycle_dropin_dir_cleared (ms : Mounts) (fs : FS) (d a : DesiredState) (n : string)
    (u : Unit) :
  well_formed d → ds_units d !! n = Some u → unit_dropins u = [] →
  ds_units a !! n ≠ Some u ∨ assertNoDirectoryOnDisk fs (dropin_dir n) = true →
  match cycle ms fs d a with
  | (fs', _, _) => assertNoDirectoryOnDisk fs' (dropin_dir n) = true
  end.
Proof.
  intros Hwd Hd Hnil Hpre. destruct (proj2 Hwd n u Hd) as (Hns & _ & _).
  unfold cycle. cbv beta iota zeta. apply assertNoDirectoryOnDisk_spec.
  intros (k & w & Hk & Hp).
  assert (Hin : in_dir (dropin_dir n) k = true) by (unfold in_dir; rewrite Hp; apply orb_true_r).
  enough (Hn : exec_plan fs (plan_steps (reconcile ms d a)) !! k = None) by congruence.
  apply exec_plan_absent.
  - intros s c m Hs ->.
    destruct (plan_write_in_dropin_dir ms d a n k c m Hwd Hns Hin Hs) as (u' & dr & Hu' & Hdr & _).
    rewrite Hd in Hu'. injection Hu' as <-. rewrite Hnil in Hdr. by apply elem_of_nil in Hdr.
  - destruct Hpre as [Ha | Hdir].
    + right; right. exists (dropin_dir n). split; [| done].
      apply (plan_unit_file_step ms _ n (ds_units a !! n, u)).
      * by apply changed_unit_lookup.
      * by apply unit_file_steps_no_dropins.
    + left. apply assertNoDirectoryOnDisk_spec in Hdir.
      destruct (fs !! k) as [x|] eqn:E; [| done]. exfalso. apply Hdir. by exists k, x.
Qed.

(** X4.  If every file of the applied state whose content resolves passes
    [assertFileOnDisk] with that content and its mode (declared permissions,
    default 0600), then after a cycle towards a well-formed desired state the
    same holds for every file of the new applied state. *)
Theorem cycle_keeps_declared_files (ms : Mounts) (fs : FS) (d a : DesiredState) :
  well_formed d → files_on_disk ms fs a = true →
  match cycle ms fs d a with
  | (fs', a', _) => files_on_disk ms fs' a' = true
  end.
Proof.
  intros [Hfd _] Hon. rewrite files_on_disk_spec in Hon.
  unfold cycle, commit. cbv beta iota zeta. apply files_on_disk_spec.
  intros p f c Hp Hc.
  assert (Hch : ds_files a !! p = None ∨ (∃ g, ds_files a !! p = Some g ∧ file_differs ms g f = true) →
                WriteFile p c (file_mode f) ∈ plan_steps (reconcile ms d a)).
  { intros Ha. assert (Hcs : cs_files_changed (diff ms d a) !! p = Some f).
    { rewrite diff_files_changed_lookup, Hp.
      destruct Ha as [-> | (g & -> & Hg)]; simpl; [done | by rewrite Hg]. }
    pose proof (plan_file_write ms _ p f Hcs) as Hw. unfold file_write_step in Hw.
    rewrite Hc in Hw. exact Hw. }
  apply exec_plan_written.
  - intros s Hs Ht. assert (Hroot : str_prefix unit_root p = false) by exact (Hfd p f Hp).
    destruct (plan_touch_root ms _ p s Hs Ht Hroot) as [(f' & Hf' & ->) | (f' & Hf' & ->)].
    + apply changed_file_desired in Hf'. rewrite Hp in Hf'. injection Hf' as <-.
      unfold file_write_step. by rewrite Hc.
    + exfalso. rewrite diff_files_removed_lookup, Hp in Hf'.
      destruct (ds_files a !! p); discriminate.
  - destruct (ds_files a !! p) as [g|] eqn:Ha; [| right; by apply Hch; left].
    destruct (file_differs ms g f) eqn:Hdf; [right; apply Hch; right; by exists g |].
    left. unfold file_differs in Hdf. apply orb_false_iff in Hdf as [H1 H2].
    apply bool_decide_eq_false, dec_stable in H1, H2.
    rewrite (Hon p g c Ha) by congruence. unfold file_mode. by rewrite H2.
Qed.

(** X5.  After a cycle in which a declared file was removed (present in the
    applied state, absent from the desired one), [assertNoFileOnDisk] passes
    for its path, provided the applied state is well formed, no directory
    stood at that path before, no file of the desired state lies beneath it,
    and the path is not an ancestor of [/etc/systemd/system/]. *)
Theorem cycle_removed_file_gone (ms : Mounts) (fs : FS) (d a : DesiredState) (p : string)
    (g : File) :
  well_formed a → ds_files a !! p = Some g → ds_files d !! p = None →
  assertNoDirectoryOnDisk fs p = true →
  map_Forall (λ q _, str_prefix (p +s+ "/") q = false) (ds_files d) →
  str_prefix (p +s+ "/") unit_root = false →
  match cycle ms fs d a with
  | (fs', _, _) => assertNoFileOnDisk fs' p = true
  end.
Proof.
  intros [Hfa _] Ha Hd Hdir Hsub Hroot. apply assertNoDirectoryOnDisk_spec in Hdir.
  assert (Hp : str_prefix unit_root p = false) by exact (Hfa p g Ha).
  unfold cycle. cbv beta iota zeta. apply assertNoFileOnDisk_spec. split.
  - apply exec_plan_absent.
    + intros s c m Hs ->.
      assert (Ht : touches p (WriteFile p c m) = true)
        by (cbn [touches]; by apply bool_decide_eq_true).
      destruct (plan_touch_root ms _ p _ Hs Ht Hp) as [(f & Hf & _) | (f & _ & Heq)];
        [| discriminate].
      apply changed_file_desired in Hf. congruence.
    + right; left. apply (plan_file_delete ms _ p g).
      rewrite diff_files_removed_lookup, Ha, Hd. done.
  - intros (k & w & Hk & Hpk).
    assert (Hkr : str_prefix unit_root k = false).
    { destruct (str_prefix unit_root k) eqn:E; [| done].
      destruct (root_under_dir p k E Hpk) as [H | H]; congruence. }
    enough (Hn : exec_plan fs (plan_steps (reconcile ms d a)) !! k = None) by congruence.
    apply exec_plan_absent.
    + intros s c m Hs ->.
      assert (Ht : touches k (WriteFile k c m) = true)
        by (cbn [touches]; by apply bool_decide_eq_true).
      destruct (plan_touch_root ms _ k _ Hs Ht Hkr) as [(f & Hf & _) | (f & _ & Heq)];
        [| discriminate].
      apply changed_file_desired in Hf.
      assert (Hs' : str_prefix (p +s+ "/") k = false) by exact (Hsub k f Hf). congruence.
    + left. destruct (fs !! k) as [x|] eqn:E; [| done]. exfalso. apply Hdir. by exists k, x.
Qed.

(** X6.  After a cycle, a drop-in that a unit of the applied state had and
    that the unit of the same name in the well-formed desired state no
    longer declares is no longer on disk. *)
Theorem cycle_stale_dropin_gone (ms : Mounts) (fs : FS) (d a : DesiredState) (n y : string)
    (u v : Unit) :
  well_formed d → ds_units a !! n = Some v → ds_units d !! n = Some u →
  y ∈ map dropin_name (unit_dropins v) → y ∉ map dropin_name (unit_dropins u) →
  match cycle ms fs d a with
  | (fs', _, _) => fs' !! dropin_path n y = None
  end.
Proof.
  intros Hwd Ha Hd Hyv Hyu. destruct (proj2 Hwd n u Hd) as (Hns & _ & _).
  assert (Hne : ds_units a !! n ≠ Some u) by (rewrite Ha; intros [= ->]; contradiction).
  pose proof (changed_unit_lookup ms d a n u Hd Hne) as Hch. rewrite Ha in Hch.
  unfold cycle. cbv beta iota zeta. apply exec_plan_absent.
  - intros s c m Hs ->.
    destruct (plan_write_in_dropin_dir ms d a n _ c m Hwd Hns (in_dir_dropin_path n y) Hs)
      as (u' & dr & Hu' & Hdr & Heq).
    rewrite Hd in Hu'. injection Hu' as <-.
    apply (dropin_path_inj n n _ _ Hns Hns) in Heq as [_ ->].
    apply Hyu. apply list_elem_of_In, in_map, list_elem_of_In, Hdr.
  - destruct (unit_dropins u) as [|d0 ds] eqn:E.
    + right; right. exists (dropin_dir n). split; [| apply in_dir_dropin_path].
      apply (plan_unit_file_step ms _ n (Some v, u) _ Hch).
      by apply unit_file_steps_no_dropins.
    + right; left. apply (plan_unit_file_step ms _ n (Some v, u) _ Hch).
      apply unit_file_steps_stale; [by rewrite E |].
      simpl. apply list_elem_of_In, filter_In. split; [by apply list_elem_of_In |].
      apply negb_true_iff, bool_decide_eq_false. by rewrite E.
Qed.

(** ** No-op reconciliations *)

(** X7.  A reconciliation plans no step at all exactly when the desired and
    the applied state have the same units, declare files at the same paths,
    and no file differs (in resolved content or permissions) from its
    applied version. *)
Theorem reconcile_noop_iff (ms : Mounts) (d a : DesiredState) :
  plan_steps (reconcile ms d a) = [] ↔
  ds_units d = ds_units a ∧
  (∀ p, is_Some (ds_files d !! p) ↔ is_Some (ds_files a !! p)) ∧
  (∀ p f g, ds_files d !! p = Some f → ds_files a !! p = Some g → file_differs ms g f = false).
Proof.
  split.
  - intros Hnil.
    change (file_phase ms (diff ms d a) ++ enablement_phase (diff ms d a)
            ++ reload_phase (diff ms d a) ++ command_phase (diff ms d a) = []) in Hnil.
    apply app_eq_nil in Hnil as [Hf Hnil]. apply app_eq_nil in Hnil as [He _].
    unfold file_phase in Hf. apply app_eq_nil in Hf as [H1 Hf]. apply app_eq_nil in Hf as [H2 _].
    unfold enablement_phase in He. apply app_eq_nil in He as [H3 H4].
    apply for_each_nil in H1; [| intros ? ? ?; discriminate].
    apply for_each_nil in H2; [| intros ? ? ?; discriminate].
    apply for_each_nil in H3; [| intros ? ? ?; discriminate].
    apply for_each_nil in H4; [| intros ? ? ?; discriminate].
    split; [| split].
    + apply map_eq. intros n.
      assert (Hc : cs_units_changed (diff ms d a) !! n = None) by (rewrite H3; apply lookup_empty).
      assert (Hr : cs_units_removed (diff ms d a) !! n = None) by (rewrite H4; apply lookup_empty).
      rewrite diff_units_changed_lookup in Hc. rewrite diff_units_removed_lookup in Hr.
      destruct (ds_units a !! n), (ds_units d !! n); simpl in Hc, Hr; try done.
      case_bool_decide; congruence.
    + intros p.
      assert (Hc : cs_files_changed (diff ms d a) !! p = None) by (rewrite H1; apply lookup_empty).
      assert (Hr : cs_files_removed (diff ms d a) !! p = None) by (rewrite H2; apply lookup_empty).
      rewrite diff_files_changed_lookup in Hc. rewrite diff_files_removed_lookup in Hr.
      destruct (ds_files a !! p), (ds_files d !! p); simpl in Hc, Hr; try done.
    + intros p f g Hd Ha.
      assert (Hc : cs_files_changed (diff ms d a) !! p = None) by (rewrite H1; apply lookup_empty).
      rewrite diff_files_changed_lookup, Hd, Ha in Hc. simpl in Hc.
      destruct (file_differs ms g f); done.
  - intros (Hu & Hdom & Hdf).
    assert (H1 : cs_files_changed (diff ms d a) = ∅).
    { apply map_empty. intros p. rewrite diff_files_changed_lookup.
      destruct (ds_files a !! p) as [g|] eqn:Ea, (ds_files d !! p) as [f|] eqn:Ed; simpl; try done.
      - by rewrite (Hdf p f g).
      - destruct (proj1 (Hdom p) (mk_is_Some _ _ Ed)) as [? ?]. congruence. }
    assert (H2 : cs_files_removed (diff ms d a) = ∅).
    { apply map_empty. intros p. rewrite diff_files_removed_lookup.
      destruct (ds_files a !! p) as [g|] eqn:Ea, (ds_files d !! p) as [f|] eqn:Ed; simpl; try done.
      destruct (proj2 (Hdom p) (mk_is_Some _ _ Ea)) as [? ?]. congruence. }
    assert (H3 : cs_units_changed (diff ms d a) = ∅).
    { apply map_empty. intros n. rewrite diff_units_changed_lookup, Hu.
      destruct (ds_units a !! n); simpl; [by rewrite bool_decide_eq_true_2 | done]. }
    assert (H4 : cs_units_removed (diff ms d a) = ∅).
    { apply map_empty. intros n. rewrite diff_units_removed_lookup, Hu.
      by destruct (ds_units a !! n). }
    unfold reconcile. destruct (diff ms d a) as [w x y z]. simpl in H1, H2, H3, H4. subst.
    reflexivity.
Qed.

(** ** Witnesses on the controller test's data *)

Ltac decide_hyp :=
  first [ vm_compute; reflexivity
        | apply (bool_decide_unpack _); vm_compute; reflexivity ].

Lemma cycle_removed_unit_gone_witness :
  match cycle OSCControllerTest.mounts OSCControllerTest.fs1_chmod
          OSCControllerTest.desired2 OSCControllerTest.desired1 with
  | (fs', _, _) => assertNoFileOnDisk fs' (unit_path "unit1") = true ∧
                   assertNoDirectoryOnDisk fs' (dropin_dir "unit1") = true
  end.
Proof.
  apply (cycle_removed_unit_gone OSCControllerTest.mounts OSCControllerTest.fs1_chmod
           OSCControllerTest.desired2 OSCControllerTest.desired1 "unit1" OSCControllerTest.unit1);
    decide_hyp.
Defined.

Lemma cycle_dropin_dir_cleared_witness :
  match cycle OSCControllerTest.mounts OSCControllerTest.fs1_chmod
          OSCControllerTest.desired2 OSCControllerTest.desired1 with
  | (fs', _, _) => assertNoDirectoryOnDisk fs' (dropin_dir "unit4") = true
  end.
Proof.
  apply (cycle_dropin_dir_cleared OSCControllerTest.mounts OSCControllerTest.fs1_chmod
           OSCControllerTest.desired2 OSCControllerTest.desired1 "unit4" OSCControllerTest.unit4');
    [decide_hyp | decide_hyp | reflexivity | left; decide_hyp].
Defined.

Lemma cycle_keeps_declared_files_witness :
  match cycle OSCControllerTest.mounts OSCControllerTest.fs1_chmod
          OSCControllerTest.desired2 OSCControllerTest.desired1 with
  | (fs', a', _) => files_on_disk OSCControllerTest.mounts fs' a' = true
  end.
Proof.
  apply (cycle_keeps_declared_files OSCControllerTest.mounts OSCControllerTest.fs1_chmod
           OSCControllerTest.desired2 OSCControllerTest.desired1); decide_hyp.
Defined.

Lemma cycle_removed_file_gone_witness :
  match cycle OSCControllerTest.mounts OSCControllerTest.fs1_chmod
          OSCControllerTest.desired2 OSCControllerTest.desired1 with
  | (fs', _, _) => assertNoFileOnDisk fs' "/another/file" = true
  end.
Proof.
  apply (cycle_removed_file_gone OSCControllerTest.mounts OSCControllerTest.fs1_chmod
           OSCControllerTest.desired2 OSCControllerTest.desired1 "/another/file"
           OSCControllerTest.file2); decide_hyp.
Defined.

Lemma cycle_stale_dropin_gone_witness :
  match cycle OSCControllerTest.mounts OSCControllerTest.fs1_chmod
          OSCControllerTest.desired2 OSCControllerTest.desired1 with
  | (fs', _, _) => fs' !! dropin_path "unit5" "drop1" = None
  end.
Proof.
  apply (cycle_stale_dropin_gone OSCControllerTest.mounts OSCControllerTest.fs1_chmod
           OSCControllerTest.desired2 OSCControllerTest.desired1 "unit5" "drop1"
           OSCControllerTest.unit5'
           (mkUnit "unit5" (Some true) (Some CommandStart) (Some "#unit5")
              [mkDropIn "drop1" "#unit5drop1"; mkDropIn "drop2" "#unit5drop2";
               mkDropIn "extensionsdrop" "#unit5extensionsdrop"] []));
    decide_hyp.
Defined.

(** ** Files of the desired state *)

(** X8.  When assembly succeeds, the desired state holds at path [p]
    exactly the file, among the owner's and the extensions' files and the
    files embedded in any unit entry, whose path is [p]. *)
Theorem assemble_files_lookup (of ef : list File) (ou eu : list Unit) (d : DesiredState)
    (p : string) (f : File) :
  assemble of ou ef eu = inl d →
  ds_files d !! p = Some f ↔ f ∈ all_files of ou ef eu ∧ file_path f = p.
Proof.
  unfold assemble. destruct (collect_files _) as [m|e] eqn:E; [| discriminate].
  intros [= <-]. simpl. unfold collect_files in E. rewrite (add_files_lookup _ _ _ p f E).
  rewrite lookup_empty. unfold all_files. naive_solver.
Qed.

Lemma assemble_files_lookup_witness :
  ds_files OSCControllerTest.desired1 !! "/unchanged/file" = Some OSCControllerTest.file4.
Proof.
  apply (assemble_files_lookup [OSCControllerTest.file1] [OSCControllerTest.file2]
           [OSCControllerTest.unit1; OSCControllerTest.unit2; OSCControllerTest.unit5;
            OSCControllerTest.unit5DropInsOnly; OSCControllerTest.unit6; OSCControllerTest.unit7]
           [OSCControllerTest.unit3; OSCControllerTest.unit4]);
    [vm_compute; reflexivity | split; [apply (bool_decide_unpack _); vm_compute; reflexivity | reflexivity]].
Defined.
